(** * Auto-Explainer API: extractor, generator, record store and endpoints

    A shallow embedding of [src/main.py] and [src/schemas.py].

    Python [str] values are sequences of Unicode code points; they are
    modelled as [list N], one number per code point, so that [len],
    slicing and [find] count what Python counts.  String literals of the
    source are written as UTF-8 text and decoded by [str]. *)

From Stdlib Require Import String Ascii.
From stdpp Require Import base list numbers option gmap.

Local Open Scope Z_scope.

(** ** Python strings *)

Abbreviation pystr := (list N).

Module Utf8.

(** Decoding of the UTF-8 bytes of a literal into code points. *)
Fixpoint decode (bs : list N) : list N :=
  match bs with
  | [] => []
  | b0 :: r0 =>
      if (b0 <? 128)%N then b0 :: decode r0
      else if (b0 <? 224)%N then
        match r0 with
        | b1 :: r1 => ((b0 - 192) * 64 + (b1 - 128))%N :: decode r1
        | [] => [b0]
        end
      else if (b0 <? 240)%N then
        match r0 with
        | b1 :: b2 :: r2 =>
            ((b0 - 224) * 4096 + (b1 - 128) * 64 + (b2 - 128))%N :: decode r2
        | _ => [b0]
        end
      else
        match r0 with
        | b1 :: b2 :: b3 :: r3 =>
            ((b0 - 240) * 262144 + (b1 - 128) * 4096
             + (b2 - 128) * 64 + (b3 - 128))%N :: decode r3
        | _ => [b0]
        end
  end.

(** [c.encode("utf-8")] for one code point. *)
Definition encode_char (c : N) : list N :=
  if (c <? 128)%N then [c]
  else if (c <? 2048)%N then [(192 + c / 64)%N; (128 + c mod 64)%N]
  else if (c <? 65536)%N then
    [(224 + c / 4096)%N; (128 + (c / 64) mod 64)%N; (128 + c mod 64)%N]
  else
    [(240 + c / 262144)%N; (128 + (c / 4096) mod 64)%N;
     (128 + (c / 64) mod 64)%N; (128 + c mod 64)%N].

(** [s.encode("utf-8")]. *)
Definition encode (s : pystr) : list N := flat_map encode_char s.

End Utf8.

(** A literal of the source, as code points. *)
Definition str (s : string) : pystr :=
  Utf8.decode (map N_of_ascii (list_ascii_of_string s)).

(** The line feed, ["\n"] in the source. *)
Definition LF : N := 10%N.

(** [s.startswith(sub)]. *)
Fixpoint startswith (sub s : pystr) : bool :=
  match sub, s with
  | [], _ => true
  | _ :: _, [] => false
  | a :: sub', b :: s' => if decide (a = b) then startswith sub' s' else false
  end.

(** [sub in s]. *)
Fixpoint contains (sub s : pystr) : bool :=
  startswith sub s ||
  match s with
  | [] => false
  | _ :: s' => contains sub s'
  end.

(** [s.find(sub)], scanning from position [i]: the lowest index at which
    [sub] occurs, or [-1]. *)
Fixpoint find_from (sub s : pystr) (i : Z) : Z :=
  if startswith sub s then i
  else match s with
       | [] => -1
       | _ :: s' => find_from sub s' (i + 1)
       end.

Definition find (sub s : pystr) : Z := find_from sub s 0.

(** A slice bound, as Python normalises it against the length [n]. *)
Definition clamp (n i : Z) : Z :=
  if i <? 0 then Z.max (i + n) 0 else Z.min i n.

(** [s[a:b]]. *)
Definition slice (s : pystr) (a b : Z) : pystr :=
  let n := Z.of_nat (length s) in
  let a' := clamp n a in
  let b' := clamp n b in
  take (Z.to_nat (b' - a')) (drop (Z.to_nat a') s).

(** [s.split(sep)] for a separator of one character, as in
    [snippet.split("\n")]. *)
Fixpoint split (sep : N) (s : pystr) : list pystr :=
  match s with
  | [] => [[]]
  | c :: s' =>
      if decide (c = sep) then [] :: split sep s'
      else match split sep s' with
           | piece :: rest => (c :: piece) :: rest
           | [] => [[c]]
           end
  end.

(** [sep.join(parts)]. *)
Fixpoint join (sep : pystr) (parts : list pystr) : pystr :=
  match parts with
  | [] => []
  | [p] => p
  | p :: rest => p ++ sep ++ join sep rest
  end.

(** [x or default] on strings: the empty string is falsy. *)
Definition or_str (x : option pystr) (default : pystr) : pystr :=
  match x with
  | Some (c :: s) => c :: s
  | _ => default
  end.

(** ASCII case mapping, the part of [str.lower] and [str.upper] that does
    not depend on the Unicode tables. *)
Definition ascii_lower (s : pystr) : pystr :=
  map (fun c => if ((65 <=? c) && (c <=? 90))%N then (c + 32)%N else c) s.

Definition ascii_upper (s : pystr) : pystr :=
  map (fun c => if ((97 <=? c) && (c <=? 122))%N then (c - 32)%N else c) s.

(** ** Python dicts

    A [dict] keeps its keys in insertion order, which [items()] exposes;
    it is modelled as an association list without duplicate keys. *)

Abbreviation dict V := (list (pystr * V)).

Fixpoint dict_get {V} (k : pystr) (d : dict V) : option V :=
  match d with
  | [] => None
  | (k', v) :: d' => if decide (k = k') then Some v else dict_get k d'
  end.

(** [d[k] = v]: an existing key keeps its position, a new one is appended. *)
Fixpoint dict_set {V} (k : pystr) (v : V) (d : dict V) : dict V :=
  match d with
  | [] => [(k, v)]
  | (k', v') :: d' =>
      if decide (k = k') then (k, v) :: d' else (k', v') :: dict_set k v d'
  end.

Definition keys {V} (d : dict V) : list pystr := map fst d.

(** ** Constants of [main.py] *)

Definition SECTIONS : list pystr :=
  [ str "instagram_post"; str "facebook_post"; str "reels_script";
    str "selling_points"; str "whatsapp_short"; str "qa";
    str "sales_call_script" ].

Definition LANGS : list pystr := [ str "en"; str "pl" ].

Definition UPLOAD_DIR : pystr := str "uploads".

(** ** The fact record

    [extracted] is a dict whose values are strings, and lists of strings
    for [amenities] and [usp].  A field is [None] when its key is absent,
    which [generate_content] allows for through [dict.get]. *)

Record facts := {
  location : option pystr;
  prices : option pystr;
  sizes : option pystr;
  payment_plan : option pystr;
  amenities : option (list pystr);
  usp : option (list pystr);
  handover : option pystr;
  developer : option pystr;
  project : option pystr;
}.

(** The empty dict [{}]. *)
Definition no_facts : facts :=
  {| location := None; prices := None; sizes := None; payment_plan := None;
     amenities := None; usp := None; handover := None; developer := None;
     project := None |}.

(** ** Generator: [generate_content] *)

Section Generator.

Variables (extracted : facts) (tone lang : pystr).

(** The nested helper [t(en, pl)]. *)
Definition t {A} (en pl : A) : A :=
  if decide (lang = str "pl") then pl else en.

(** The nested helper [apply_tone(text)]. *)
Definition apply_tone (text : pystr) : pystr :=
  if decide (tone = str "aggressive") then
    t (str "ACT NOW: ") (str "DZIAŁAJ TERAZ: ") ++ text
  else if decide (tone = str "simple") then
    t (str "Plain: ") (str "Prosto: ") ++ text
  else if decide (tone = str "storytelling") then
    t (str "Imagine this: ") (str "Wyobraź sobie: ") ++ text
  else
    t (str "Premium: ") (str "Premium: ") ++ text.

Definition name : pystr := or_str (project extracted) (str "New Development").
Definition location_ : pystr := default [] (location extracted).
Definition prices_ : pystr := default [] (prices extracted).
Definition sizes_ : pystr := default [] (sizes extracted).
Definition payment : pystr := default [] (payment_plan extracted).
Definition amenities_ : pystr :=
  join (str ", ") (default [] (amenities extracted)).
Definition usp_ : pystr := join (str ", ") (default [] (usp extracted)).
Definition handover_ : pystr := default [] (handover extracted).
Definition developer_ : pystr := default [] (developer extracted).

Definition instagram : pystr :=
  apply_tone
    (t (name ++ str " in " ++ location_ ++ str ". " ++ prices_ ++ str " "
        ++ sizes_ ++ str " " ++ payment ++ str " Amenities: " ++ amenities_
        ++ str ". Handover: " ++ handover_ ++ str ". By " ++ developer_
        ++ str ".")
       (name ++ str " w " ++ location_ ++ str ". " ++ prices_ ++ str " "
        ++ sizes_ ++ str " " ++ payment ++ str " Udogodnienia: "
        ++ amenities_ ++ str ". Handover: " ++ handover_
        ++ str ". Deweloper: " ++ developer_ ++ str ".")).

Definition facebook : pystr :=
  apply_tone
    (t (str "Discover " ++ name ++ str ". Key points: " ++ usp_
        ++ str ". Prices: " ++ prices_ ++ str ". Sizes: " ++ sizes_
        ++ str ". Payment: " ++ payment ++ str ". Location: " ++ location_
        ++ str ".")
       (str "Poznaj " ++ name ++ str ". Kluczowe atuty: " ++ usp_
        ++ str ". Ceny: " ++ prices_ ++ str ". Metraże: " ++ sizes_
        ++ str ". Płatność: " ++ payment ++ str ". Lokalizacja: "
        ++ location_ ++ str ".")).

Definition reels : pystr :=
  apply_tone
    (t (str "Hook: Own " ++ name ++ str " in " ++ location_ ++ str "."
        ++ [LF] ++ str "- " ++ usp_ ++ [LF] ++ str "- " ++ prices_ ++ [LF]
        ++ str "- " ++ sizes_ ++ [LF] ++ str "- " ++ payment ++ [LF]
        ++ str "CTA: DM for details.")
       (str "Hook: " ++ name ++ str " w " ++ location_ ++ str "."
        ++ [LF] ++ str "- " ++ usp_ ++ [LF] ++ str "- " ++ prices_ ++ [LF]
        ++ str "- " ++ sizes_ ++ [LF] ++ str "- " ++ payment ++ [LF]
        ++ str "CTA: Napisz po szczegóły.")).

Definition selling_points : pystr :=
  apply_tone
    (t (str "Top 10: " ++ usp_ ++ str ", Amenities: " ++ amenities_
        ++ str ", Handover: " ++ handover_ ++ str ", Developer: "
        ++ developer_)
       (str "Top 10: " ++ usp_ ++ str ", Udogodnienia: " ++ amenities_
        ++ str ", Handover: " ++ handover_ ++ str ", Deweloper: "
        ++ developer_)).

Definition whatsapp : pystr :=
  apply_tone
    (t (str "Short: " ++ name ++ str " in " ++ location_ ++ str ". "
        ++ prices_ ++ str " " ++ payment)
       (str "Krótko: " ++ name ++ str " w " ++ location_ ++ str ". "
        ++ prices_ ++ str " " ++ payment)).

Definition qa_items : list pystr :=
  [ t (str "What is the starting price?") (str "Jaka jest cena startowa?");
    t (str "What sizes are available?") (str "Jakie metraże są dostępne?");
    t (str "What is the payment plan?") (str "Jaki jest plan płatności?");
    t (str "Where is it located?") (str "Gdzie znajduje się inwestycja?");
    t (str "When is handover?") (str "Kiedy odbiory?");
    t (str "Who is the developer?") (str "Kto jest deweloperem?");
    t (str "What amenities are included?") (str "Jakie udogodnienia?");
    t (str "Expected ROI?") (str "Oczekiwany zwrot?");
    t (str "Is financing available?") (str "Czy dostępne jest finansowanie?");
    t (str "How to reserve?") (str "Jak zarezerwować?") ].

Definition qa : pystr :=
  join [LF] (map (fun q => str "Q: " ++ q ++ [LF] ++ str "A: ") qa_items).

Definition call_script : pystr :=
  apply_tone
    (t (str "Intro: calling about " ++ name
        ++ str ". Confirm interest, share " ++ prices_ ++ str " & "
        ++ payment ++ str ", schedule viewing.")
       (str "Intro: dzwonię w sprawie " ++ name
        ++ str ". Potwierdź zainteresowanie, podaj " ++ prices_ ++ str " i "
        ++ payment ++ str ", umów prezentację.")).

Definition generate_content : dict pystr :=
  [ (str "instagram_post", instagram);
    (str "facebook_post", facebook);
    (str "reels_script", reels);
    (str "selling_points", selling_points);
    (str "whatsapp_short", whatsapp);
    (str "qa", qa);
    (str "sales_call_script", call_script) ].

End Generator.

(** [build_outputs]: one [generate_content] per requested language, stored
    under that language code in the order given. *)
Definition build_outputs (extracted : facts) (tone : pystr)
    (languages : list pystr) : dict (dict pystr) :=
  foldl (fun outputs lang =>
           dict_set lang (generate_content extracted tone lang) outputs)
        [] languages.

(** ** Extractor: [simple_extract] *)

(** [parts[0]]; [str.split] never returns an empty list. *)
Definition first_piece (parts : list pystr) : pystr := hd [] parts.

Section Extractor.

(** [str.lower], Python's Unicode lower-casing.  It follows the Unicode
    tables and may change the length of a string; the extractor is
    modelled for any such function. *)
Variable lower : pystr -> pystr.

(** One round of the loop [for key in [...]]: the value left in
    [data[key]], which starts as the empty string. *)
Definition labelled (key text : pystr) : pystr :=
  let lower_text := lower text in
  if contains key lower_text then
    let start := find key lower_text in
    let snippet := slice text start (start + 160) in
    first_piece (split LF snippet)
  else [].

Definition simple_extract (text : pystr) : facts :=
  let lower_text := lower text in
  {| location := Some (labelled (str "location") text);
     prices :=
       Some (if contains (str "price") lower_text
                || contains (str "from") lower_text
             then str "From competitive entry pricing; exact figures detected when using AI mode."
             else []);
     sizes :=
       Some (if contains (str "sqft") lower_text
                || contains (str "sqm") lower_text
                || contains (str "bed") lower_text
             then str "Studios to 4BR; sizes auto-detected in AI mode."
             else []);
     payment_plan :=
       Some (if contains (str "payment") lower_text
                || contains (str "installment") lower_text
             then str "Flexible installments available."
             else []);
     amenities :=
       Some (if contains (str "amenit") lower_text
                || contains (str "pool") lower_text
                || contains (str "gym") lower_text
             then [str "Pool"; str "Gym"; str "Parking"]
             else []);
     usp := Some [str "Prime location"; str "Strong ROI potential"];
     handover := Some (labelled (str "handover") text);
     developer := Some (labelled (str "developer") text);
     project := Some (labelled (str "project") text) |}.

End Extractor.

(** ** Paths, identifiers and other library calls *)

(** [s[:b]] and [s[a:]]. *)
Definition slice_to (s : pystr) (b : Z) : pystr := slice s 0 b.
Definition slice_from (s : pystr) (a : Z) : pystr :=
  slice s a (Z.of_nat (length s)).

(** [s.rfind(sub)]: the highest index at which [sub] occurs, or [-1]. *)
Fixpoint rfind_from (sub s : pystr) (i last : Z) : Z :=
  let last' := if startswith sub s then i else last in
  match s with
  | [] => last'
  | _ :: s' => rfind_from sub s' (i + 1) last'
  end.

Definition rfind (sub s : pystr) : Z := rfind_from sub s 0 (-1).

(** [s.endswith(sub)]. *)
Definition endswith (sub s : pystr) : bool :=
  startswith (reverse sub) (reverse s).

(** [os.path.splitext] (POSIX): the extension starts at the last dot of the
    last path component, unless that component has only dots before it. *)
Definition splitext (p : pystr) : pystr * pystr :=
  let sepIndex := rfind (str "/") p in
  let dotIndex := rfind (str ".") p in
  if (sepIndex <? dotIndex)
     && existsb (fun c => negb (bool_decide (c = 46%N)))
                (slice p (sepIndex + 1) dotIndex)
  then (slice_to p dotIndex, slice_from p dotIndex)
  else (p, []).

(** [os.path.join(a, b)] (POSIX). *)
Definition path_join (a b : pystr) : pystr :=
  if startswith (str "/") b then b
  else if bool_decide (a = []) || endswith (str "/") a then a ++ b
  else a ++ str "/" ++ b.

(** [os.path.basename] (POSIX). *)
Definition basename (p : pystr) : pystr :=
  slice_from p (rfind (str "/") p + 1).

(** The value of a hexadecimal digit. *)
Definition hex_value (c : N) : option N :=
  if ((48 <=? c) && (c <=? 57))%N then Some (c - 48)%N
  else if ((97 <=? c) && (c <=? 102))%N then Some (c - 87)%N
  else if ((65 <=? c) && (c <=? 70))%N then Some (c - 55)%N
  else None.

(** ASCII white space, which [bytes.fromhex] skips between bytes. *)
Definition is_space (c : N) : bool :=
  bool_decide (c = 32%N) || ((9 <=? c) && (c <=? 13))%N.

(** [bytes.fromhex(s)]; [None] stands for its [ValueError]. *)
Fixpoint fromhex (s : pystr) : option (list N) :=
  match s with
  | [] => Some []
  | c :: s' =>
      if is_space c then fromhex s'
      else match s' with
           | d :: s'' =>
               match hex_value c, hex_value d, fromhex s'' with
               | Some h, Some l, Some bs => Some ((16 * h + l)%N :: bs)
               | _, _, _ => None
               end
           | [] => None
           end
  end.

(** [bson.ObjectId(s)] of the MongoDB driver, for a string [s]: the bytes
    written in a string of 24 characters; [None] stands for its
    [InvalidId] exception. *)
Definition ObjectId (s : pystr) : option (list N) :=
  if decide (length s = 24%nat) then fromhex s else None.

Definition hex_digit (n : N) : N :=
  if (n <? 10)%N then (48 + n)%N else (87 + n)%N.

(** [str(oid)]: two lower-case hexadecimal digits per byte. *)
Definition oid_str (oid : list N) : pystr :=
  flat_map (fun b => [hex_digit (b / 16); hex_digit (b mod 16)]) oid.

(** ** Records and requests ([schemas.py]) *)

(** A stored document of the [project] collection: the fields of the
    [Project] model, and [updated_at] once a mutation has stamped it. *)
Record document := {
  doc_title : option pystr;
  doc_source_type : pystr;
  doc_source_url : option pystr;
  doc_file_path : option pystr;
  doc_tone : pystr;
  doc_extracted : facts;
  doc_outputs : dict (dict pystr);
  doc_updated_at : option N;
}.

Record ProcessURLRequest := {
  url : pystr;
  url_tone : pystr;
  url_languages : list pystr;
}.

Record RegenerateRequest := {
  regen_tone : pystr;
  regen_languages : list pystr;
}.

Record OutputsPayload := { payload_outputs : dict (dict pystr) }.

Record ExportQuery := { format : pystr }.

Record UploadFile := {
  filename : pystr;
  file_bytes : list N;
}.

(** ** The state of the service *)

(** The [project] collection, keyed by the bytes of the document's [_id],
    and the writes made under [uploads/], oldest first.  A write,
    [open(saved, "wb")], creates the file or replaces its content: the
    content of a path is that of its latest write, as [read_file] reads
    it. *)
Record world := {
  db_project : gmap (list N) document;
  files : list (pystr * list N);
}.

(** The content of the file at [path] after the writes [fs]. *)
Fixpoint read_file (fs : list (pystr * list N)) (path : pystr)
    : option (list N) :=
  match fs with
  | [] => None
  | (p, content) :: later =>
      match read_file later path with
      | Some latest => Some latest
      | None => if decide (p = path) then Some content else None
      end
  end.

(** How a request ends: a returned value, a raised [HTTPException], or an
    exception the handler does not catch (a server error, status 500). *)
Inductive result (A : Type) :=
| Return (a : A)
| HTTPException (status_code : Z) (detail : pystr)
| Unhandled.
Arguments Return {A} a.
Arguments HTTPException {A} status_code detail.
Arguments Unhandled {A}.

Definition status_of {A} (r : result A) : Z :=
  match r with
  | Return _ => 200
  | HTTPException code _ => code
  | Unhandled => 500
  end.

(** Modelled from the spec: [create_document] of the [database] module,
    which is not part of the sources.  [create(record) -> id] stores the
    record under an identifier assigned on creation and returns the
    identifier as a string; [updated_at] is absent on creation.  The
    identifier [oid] is the one generated for this insertion; an identifier
    already in use makes the insertion fail. *)
Definition create_document (oid : list N) (data : document)
    (db : gmap (list N) document)
    : result pystr * gmap (list N) document :=
  match db !! oid with
  | Some _ => (Unhandled, db)
  | None => (Return (oid_str oid), <[oid := data]> db)
  end.

(** [Project(...).model_dump()]. *)
Definition Project (title : option pystr) (source_type : pystr)
    (source_url file_path : option pystr) (tone : pystr) (extracted : facts)
    (outputs : dict (dict pystr)) : document :=
  {| doc_title := title; doc_source_type := source_type;
     doc_source_url := source_url; doc_file_path := file_path;
     doc_tone := tone; doc_extracted := extracted; doc_outputs := outputs;
     doc_updated_at := None |}.

(** ** The endpoints of [main.py]

    A handler takes the state of the service and its request, and returns
    how the request ends together with the state it leaves.  What the
    environment supplies during a request is an argument of the handler:
    the text fetched from the URL, the random name of the saved file, the
    identifier generated for an inserted document, the clock. *)

Section Endpoints.

Variables lower upper : pystr -> pystr.

(** [POST /api/process/url].  [fetched] is [r.text] of
    [requests.get(payload.url, timeout=10)], or the message of the
    exception [e] when the call raises. *)
Definition process_url (payload : ProcessURLRequest)
    (fetched : pystr + pystr) (oid : list N) (w : world)
    : result (pystr * document) * world :=
  match fetched with
  | inr e => (HTTPException 400 (str "Failed to fetch: " ++ e), w)
  | inl text =>
      let content := slice_to text 5000 in
      let extracted := simple_extract lower content in
      let outputs :=
        build_outputs extracted (url_tone payload) (url_languages payload) in
      let project :=
        Project (Some (or_str (project extracted) (url payload)))
                (str "url") (Some (url payload)) None (url_tone payload)
                extracted outputs in
      match create_document oid project (db_project w) with
      | (Return project_id, db) =>
          (Return (project_id, project),
           {| db_project := db; files := files w |})
      | (HTTPException code detail, _) => (HTTPException code detail, w)
      | (Unhandled, _) => (Unhandled, w)
      end
  end.

(** [POST /api/process/upload].  [uuid_hex] is [uuid.uuid4().hex]. *)
Definition process_upload (file : UploadFile) (tone : pystr)
    (uuid_hex : pystr) (oid : list N) (w : world)
    : result (pystr * document) * world :=
  let ext := lower (snd (splitext (filename file))) in
  if negb (bool_decide
             (ext ∈ [str ".pdf"; str ".png"; str ".jpg"; str ".jpeg"]))
  then (HTTPException 400 (str "Unsupported file type"), w)
  else
    let saved := path_join UPLOAD_DIR (uuid_hex ++ ext) in
    let w1 := {| db_project := db_project w;
                 files := files w ++ [(saved, file_bytes file)] |} in
    let text_hint := filename file in
    let extracted := simple_extract lower text_hint in
    let outputs := build_outputs extracted tone LANGS in
    let project :=
      Project (Some (or_str (project extracted) (basename (filename file))))
              (str "upload") None (Some saved) tone extracted outputs in
    match create_document oid project (db_project w1) with
    | (Return project_id, db) =>
        (Return (project_id, project),
         {| db_project := db; files := files w1 |})
    | (HTTPException code detail, _) => (HTTPException code detail, w1)
    | (Unhandled, _) => (Unhandled, w1)
    end.

(** [GET /api/projects/{project_id}]. *)
Definition get_project (project_id : pystr) (w : world)
    : result (pystr * document) * world :=
  match ObjectId project_id with
  | None => (Unhandled, w)
  | Some oid =>
      match db_project w !! oid with
      | None => (HTTPException 404 (str "Not found"), w)
      | Some doc => (Return (oid_str oid, doc), w)
      end
  end.

(** [POST /api/projects/{project_id}/update_outputs].  [now] is
    [datetime.utcnow()]. *)
Definition update_outputs (project_id : pystr) (payload : OutputsPayload)
    (now : N) (w : world) : result pystr * world :=
  match ObjectId project_id with
  | None => (Unhandled, w)
  | Some oid =>
      match db_project w !! oid with
      | None => (HTTPException 404 (str "Not found"), w)
      | Some doc =>
          let doc' :=
            {| doc_title := doc_title doc;
               doc_source_type := doc_source_type doc;
               doc_source_url := doc_source_url doc;
               doc_file_path := doc_file_path doc;
               doc_tone := doc_tone doc;
               doc_extracted := doc_extracted doc;
               doc_outputs := payload_outputs payload;
               doc_updated_at := Some now |} in
          (Return (str "ok"),
           {| db_project := <[oid := doc']> (db_project w);
              files := files w |})
      end
  end.

(** [POST /api/projects/{project_id}/regenerate]. *)
Definition regenerate (project_id : pystr) (payload : RegenerateRequest)
    (now : N) (w : world) : result pystr * world :=
  match ObjectId project_id with
  | None => (Unhandled, w)
  | Some oid =>
      match db_project w !! oid with
      | None => (HTTPException 404 (str "Not found"), w)
      | Some doc =>
          let outputs :=
            build_outputs (doc_extracted doc) (regen_tone payload)
                          (regen_languages payload) in
          let doc' :=
            {| doc_title := doc_title doc;
               doc_source_type := doc_source_type doc;
               doc_source_url := doc_source_url doc;
               doc_file_path := doc_file_path doc;
               doc_tone := regen_tone payload;
               doc_extracted := doc_extracted doc;
               doc_outputs := outputs;
               doc_updated_at := Some now |} in
          (Return (str "ok"),
           {| db_project := <[oid := doc']> (db_project w);
              files := files w |})
      end
  end.

(** What [export] returns. *)
Inductive export_response :=
| StreamingResponse (body : list N) (media_type : pystr)
                    (headers : dict pystr).

(** [JSONResponse(doc)] renders its content with [json.dumps] when it is
    built.  The document read by [find_one] carries its [_id], an
    ObjectId, which [json.dumps] does not serialise: the call raises
    [TypeError], which [export] does not catch. *)
Definition JSONResponse (content : document) : result export_response :=
  Unhandled.

(** The nested helper [combined_text()]; a title of [None] is formatted
    as the word [None]. *)
Definition combined_text (doc : document) : pystr :=
  let lines :=
    (str "Title: " ++ default (str "None") (doc_title doc))
    :: flat_map
         (fun '(lang, sections) =>
            ([LF] ++ str "=== " ++ upper lang ++ str " ===")
            :: map (fun '(sec, val) =>
                      [LF] ++ str "## " ++ sec ++ [LF] ++ val)
                   sections)
         (doc_outputs doc) in
  join [LF] lines.

(** [POST /api/projects/{project_id}/export]. *)
Definition export (project_id : pystr) (query : ExportQuery) (w : world)
    : result export_response * world :=
  match ObjectId project_id with
  | None => (Unhandled, w)
  | Some oid =>
      match db_project w !! oid with
      | None => (HTTPException 404 (str "Not found"), w)
      | Some doc =>
          let fmt := lower (format query) in
          if decide (fmt = str "json") then (JSONResponse doc, w)
          else
            let text_data := combined_text doc in
            if decide (fmt = str "txt") then
              (Return (StreamingResponse (Utf8.encode text_data)
                         (str "text/plain")
                         [(str "Content-Disposition",
                           str "attachment; filename=export.txt")]), w)
            else if decide (fmt = str "pdf") then
              (Return (StreamingResponse (Utf8.encode text_data)
                         (str "application/pdf")
                         [(str "Content-Disposition",
                           str "attachment; filename=export.pdf")]), w)
            else if decide (fmt = str "docx") then
              (Return (StreamingResponse (Utf8.encode text_data)
                         (str "application/vnd.openxmlformats-officedocument.wordprocessingml.document")
                         [(str "Content-Disposition",
                           str "attachment; filename=export.docx")]), w)
            else (HTTPException 400 (str "Unsupported export format"), w)
      end
  end.

(** A request to the service, with what the environment supplies to it. *)
Inductive request :=
| ProcessURL (payload : ProcessURLRequest) (fetched : pystr + pystr)
             (oid : list N)
| ProcessUpload (file : UploadFile) (tone : pystr) (uuid_hex : pystr)
                (oid : list N)
| GetProject (project_id : pystr)
| UpdateOutputs (project_id : pystr) (payload : OutputsPayload) (now : N)
| Regenerate (project_id : pystr) (payload : RegenerateRequest) (now : N)
| Export (project_id : pystr) (query : ExportQuery).

(** The state a request leaves, and its HTTP status. *)
Definition handle (w : world) (r : request) : Z * world :=
  match r with
  | ProcessURL payload fetched oid =>
      let '(res, w') := process_url payload fetched oid w in
      (status_of res, w')
  | ProcessUpload file tone uuid_hex oid =>
      let '(res, w') := process_upload file tone uuid_hex oid w in
      (status_of res, w')
  | GetProject project_id =>
      let '(res, w') := get_project project_id w in (status_of res, w')
  | UpdateOutputs project_id payload now =>
      let '(res, w') := update_outputs project_id payload now w in
      (status_of res, w')
  | Regenerate project_id payload now =>
      let '(res, w') := regenerate project_id payload now w in
      (status_of res, w')
  | Export project_id query =>
      let '(res, w') := export project_id query w in (status_of res, w')
  end.

(** The state after a sequence of requests. *)
Definition run (w : world) (rs : list request) : world :=
  foldl (fun w r => snd (handle w r)) w rs.

End Endpoints.

(** The service before any request. *)
Definition initial : world := {| db_project := ∅; files := [] |}.

(** ** The specification's vocabulary *)

(** The specification's table of tone markers, English then Polish:
    aggressive, simple and storytelling have their own phrase, every other
    tone the Premium one.  The Polish phrase belongs to the language code
    [pl], the English one to every other code. *)
Definition tone_markers : dict (pystr * pystr) :=
  [ (str "aggressive", (str "ACT NOW: ", str "DZIAŁAJ TERAZ: "));
    (str "simple", (str "Plain: ", str "Prosto: "));
    (str "storytelling", (str "Imagine this: ", str "Wyobraź sobie: ")) ].

Definition tone_prefix (tone lang : pystr) : pystr :=
  let '(en, pl) :=
    default (str "Premium: ", str "Premium: ") (dict_get tone tone_markers) in
  if decide (lang = str "pl") then pl else en.

(** The facts of the specification's worked example. *)
Definition marina_heights : facts :=
  {| location := Some (str "Downtown");
     prices := Some [];
     sizes := Some [];
     payment_plan := Some [];
     amenities := Some [];
     usp := Some [str "Prime location"; str "Strong ROI potential"];
     handover := Some [];
     developer := Some [];
     project := Some (str "Marina Heights") |}.




(** A project id identifies a stored record when it converts to the
    [_id] of a document of the collection. *)
Definition identifies (w : world) (project_id : pystr) : Prop :=
  exists oid doc,
    ObjectId project_id = Some oid /\ db_project w !! oid = Some doc.

(** Twelve bytes, as the identifier of a document, and a project stored
    under them: examples for the properties below. *)
Definition oid_1 : list N := [0; 0; 0; 0; 0; 0; 0; 0; 0; 0; 0; 1]%N.

Definition brochure : UploadFile :=
  {| filename := str "Marina project brochure.PDF"; file_bytes := [37; 80]%N |}.

Definition one_project : world :=
  snd (process_upload ascii_lower brochure (str "premium") (str "0f1e2d")
         oid_1 initial).

(** The document that [one_project] holds. *)
Definition brochure_project : document :=
  let extracted := simple_extract ascii_lower (filename brochure) in
  Project (Some (or_str (project extracted) (basename (filename brochure))))
          (str "upload") None
          (Some (path_join UPLOAD_DIR (str "0f1e2d" ++ str ".pdf")))
          (str "premium") extracted
          (build_outputs extracted (str "premium") LANGS).


(** The labels of the extractor's loop. *)
Definition labels : list pystr :=
  [str "location"; str "handover"; str "developer"; str "project"].

(** A fact record with every absent key filled in by the default that
    [generate_content] uses for it. *)
Definition with_defaults (e : facts) : facts :=
  {| location := Some (default [] (location e));
     prices := Some (default [] (prices e));
     sizes := Some (default [] (sizes e));
     payment_plan := Some (default [] (payment_plan e));
     amenities := Some (default [] (amenities e));
     usp := Some (default [] (usp e));
     handover := Some (default [] (handover e));
     developer := Some (default [] (developer e));
     project := Some (or_str (project e) (str "New Development")) |}.

(** The fields of a document that record where it came from. *)
Definition same_origin (d d' : document) : Prop :=
  doc_title d' = doc_title d
  /\ doc_source_type d' = doc_source_type d
  /\ doc_source_url d' = doc_source_url d
  /\ doc_file_path d' = doc_file_path d
  /\ doc_extracted d' = doc_extracted d.

(** A document as an ingestion creates it: a title, the facts of some
    text, and either an upload with its file path or a URL. *)
Definition ingested (lower : pystr -> pystr) (d : document) : Prop :=
  is_Some (doc_title d)
  /\ (exists text, doc_extracted d = simple_extract lower text)
  /\ ((doc_source_type d = str "upload"
       /\ doc_source_url d = None /\ is_Some (doc_file_path d))
      \/ (doc_source_type d = str "url"
          /\ is_Some (doc_source_url d) /\ doc_file_path d = None)).

(** The identifier of a document as the driver generates it: twelve
    bytes. *)
Definition generated_oid (oid : list N) : Prop :=
  length oid = 12%nat /\ Forall (fun b => (b < 256)%N) oid.

(** The path that an upload writes, when its extension is accepted. *)
Definition upload_path (lower : pystr -> pystr) (r : request)
    : option pystr :=
  match r with
  | ProcessUpload file _ uuid_hex _ =>
      let ext := lower (snd (splitext (filename file))) in
      if bool_decide
           (ext ∈ [str ".pdf"; str ".png"; str ".jpg"; str ".jpeg"])
      then Some (path_join UPLOAD_DIR (uuid_hex ++ ext))
      else None
  | _ => None
  end.


(** The specification's export text: the title line, then for each
    language of the outputs, in their order, a header with the upper-cased
    code followed by each section of that language, in their order, as its
    name and its content.  An empty line sets headers and sections
    apart. *)
Definition export_text (upper : pystr -> pystr) (doc : document) : pystr :=
  str "Title: " ++ default (str "None") (doc_title doc)
  ++ concat
       (map (fun '(lang, sections) =>
               [LF; LF] ++ str "=== " ++ upper lang ++ str " ==="
               ++ concat
                    (map (fun '(sec, val) =>
                            [LF; LF] ++ str "## " ++ sec ++ [LF] ++ val)
                         sections))
            (doc_outputs doc)).

(** The ten questions of the [qa] section in English. *)
Definition english_questions : list pystr :=
  [ str "What is the starting price?"; str "What sizes are available?";
    str "What is the payment plan?"; str "Where is it located?";
    str "When is handover?"; str "Who is the developer?";
    str "What amenities are included?"; str "Expected ROI?";
    str "Is financing available?"; str "How to reserve?" ].

(** The English-language content of the seven sections: the English
    marker of the tone in front of the English sentence of each section,
    and the English questions for [qa]. *)
Definition english_content (e : facts) (tone : pystr) : dict pystr :=
  let marker := tone_prefix tone (str "en") in
  [ (str "instagram_post",
     marker
     ++ (name e ++ str " in " ++ location_ e ++ str ". " ++ prices_ e
         ++ str " " ++ sizes_ e ++ str " " ++ payment e
         ++ str " Amenities: " ++ amenities_ e ++ str ". Handover: "
         ++ handover_ e ++ str ". By " ++ developer_ e ++ str "."));
    (str "facebook_post",
     marker
     ++ (str "Discover " ++ name e ++ str ". Key points: " ++ usp_ e
         ++ str ". Prices: " ++ prices_ e ++ str ". Sizes: " ++ sizes_ e
         ++ str ". Payment: " ++ payment e ++ str ". Location: "
         ++ location_ e ++ str "."));
    (str "reels_script",
     marker
     ++ (str "Hook: Own " ++ name e ++ str " in " ++ location_ e ++ str "."
         ++ [LF] ++ str "- " ++ usp_ e ++ [LF] ++ str "- " ++ prices_ e
         ++ [LF] ++ str "- " ++ sizes_ e ++ [LF] ++ str "- " ++ payment e
         ++ [LF] ++ str "CTA: DM for details."));
    (str "selling_points",
     marker
     ++ (str "Top 10: " ++ usp_ e ++ str ", Amenities: " ++ amenities_ e
         ++ str ", Handover: " ++ handover_ e ++ str ", Developer: "
         ++ developer_ e));
    (str "whatsapp_short",
     marker
     ++ (str "Short: " ++ name e ++ str " in " ++ location_ e ++ str ". "
         ++ prices_ e ++ str " " ++ payment e));
    (str "qa",
     join [LF]
       (map (fun q => str "Q: " ++ q ++ [LF] ++ str "A: ")
            english_questions));
    (str "sales_call_script",
     marker
     ++ (str "Intro: calling about " ++ name e
         ++ str ". Confirm interest, share " ++ prices_ e ++ str " & "
         ++ payment e ++ str ", schedule viewing.")) ].




(** The lines of a text that start with [mark]. *)
Definition lines_starting (mark text : pystr) : list pystr :=
  filter (fun line => startswith mark line = true) (split LF text).

(** * Properties *)

(** ** Strings and dicts *)

Lemma startswith_app (p s : pystr) : startswith p (p ++ s) = true.
Proof.
  induction p as [|c p IH]; simpl; [done|].
  by rewrite decide_True.
Qed.

Lemma startswith_prefix (p s : pystr) :
  startswith p s = true <-> exists r, s = p ++ r.
Proof.
  split.
  - revert s. induction p as [|c p IH]; intros s H.
    + by exists s.
    + destruct s as [|d s]; simpl in H; [done|].
      destruct (decide (c = d)) as [->|]; [|done].
      destruct (IH _ H) as [r ->]. by exists r.
  - intros [r ->]. apply startswith_app.
Qed.

Lemma dict_get_set_eq {V} (k : pystr) (v : V) (d : dict V) :
  dict_get k (dict_set k v d) = Some v.
Proof.
  induction d as [|[k' v'] d IH]; simpl.
  - by rewrite decide_True.
  - destruct (decide (k = k')) as [->|Hne]; simpl.
    + by rewrite decide_True.
    + by rewrite decide_False.
Qed.

Lemma dict_get_set_ne {V} (k k' : pystr) (v : V) (d : dict V) :
  k <> k' -> dict_get k (dict_set k' v d) = dict_get k d.
Proof.
  intros Hne. induction d as [|[k'' v''] d IH]; simpl.
  - by rewrite decide_False.
  - destruct (decide (k' = k'')) as [->|Hne']; simpl.
    + by rewrite !decide_False.
    + destruct (decide (k = k'')); [done|]. apply IH.
Qed.


Lemma dict_get_Some_key {V} (k : pystr) (v : V) (d : dict V) :
  dict_get k d = Some v -> k ∈ keys d.
Proof.
  unfold keys. induction d as [|[k' v'] d IH]; simpl; [done|].
  destruct (decide (k = k')) as [->|]; intros H.
  - apply elem_of_cons; by left.
  - apply elem_of_cons; right; auto.
Qed.

(** ** [build_outputs] *)

Section BuildOutputs.

Context {V : Type} (f : pystr -> V).

(** The loop [for lang in languages: outputs[lang] = f(lang)]. *)
Lemma fill_get (ks : list pystr) (d : dict V) (k : pystr) :
  dict_get k (foldl (fun out l => dict_set l (f l) out) d ks)
  = if decide (k ∈ ks) then Some (f k) else dict_get k d.
Proof.
  revert d. induction ks as [|l ks IH]; intros d; simpl.
  - destruct (decide (k ∈ [])) as [Hin|_]; [|done].
    by apply elem_of_nil in Hin.
  - rewrite IH. destruct (decide (k ∈ ks)) as [Hin|Hnin].
    + rewrite decide_True; [done|]. apply elem_of_cons; by right.
    + destruct (decide (k = l)) as [->|Hne].
      * rewrite decide_True by (apply elem_of_cons; by left).
        apply dict_get_set_eq.
      * rewrite decide_False.
        -- by apply dict_get_set_ne.
        -- intros [?|?]%elem_of_cons; done.
Qed.


End BuildOutputs.

Lemma build_outputs_get (e : facts) (tone : pystr) (languages : list pystr)
    (lang : pystr) :
  dict_get lang (build_outputs e tone languages)
  = if decide (lang ∈ languages) then Some (generate_content e tone lang)
    else None.
Proof. unfold build_outputs. by rewrite fill_get. Qed.


(** ** The generator *)

Lemma t_pl {A} (en pl : A) : t (str "pl") en pl = pl.
Proof. unfold t. by destruct (decide (str "pl" = str "pl")). Qed.

Lemma t_not_pl {A} (lang : pystr) (en pl : A) :
  lang <> str "pl" -> t lang en pl = en.
Proof. intros H. unfold t. by destruct (decide (lang = str "pl")). Qed.

Lemma apply_tone_prefix (tone lang text : pystr) :
  apply_tone tone lang text = tone_prefix tone lang ++ text.
Proof.
  unfold apply_tone, tone_prefix, tone_markers. cbn [dict_get].
  destruct (decide (tone = str "aggressive")); [reflexivity|].
  destruct (decide (tone = str "simple")); [reflexivity|].
  destruct (decide (tone = str "storytelling")); reflexivity.
Qed.

Lemma tone_prefix_nonempty (tone lang : pystr) : tone_prefix tone lang <> [].
Proof.
  unfold tone_prefix, tone_markers. cbn [dict_get].
  destruct (decide (tone = str "aggressive"));
    [|destruct (decide (tone = str "simple"));
      [|destruct (decide (tone = str "storytelling"))]];
    cbn [default]; destruct (decide (lang = str "pl"));
    vm_compute; discriminate.
Qed.

Lemma tone_prefix_other (tone lang : pystr) :
  tone <> str "aggressive" -> tone <> str "simple" ->
  tone <> str "storytelling" -> tone_prefix tone lang = str "Premium: ".
Proof.
  intros H1 H2 H3. unfold tone_prefix, tone_markers. cbn [dict_get].
  destruct (decide (tone = str "aggressive")); [done|].
  destruct (decide (tone = str "simple")); [done|].
  destruct (decide (tone = str "storytelling")); [done|].
  cbn [default]. by destruct (decide (lang = str "pl")).
Qed.

(** The entries of the returned dict, key by key. *)
Lemma generate_content_entries (e : facts) (tone lang : pystr) :
  let d := generate_content e tone lang in
  dict_get (str "instagram_post") d = Some (instagram e tone lang)
  /\ dict_get (str "facebook_post") d = Some (facebook e tone lang)
  /\ dict_get (str "reels_script") d = Some (reels e tone lang)
  /\ dict_get (str "selling_points") d = Some (selling_points e tone lang)
  /\ dict_get (str "whatsapp_short") d = Some (whatsapp e tone lang)
  /\ dict_get (str "qa") d = Some (qa lang)
  /\ dict_get (str "sales_call_script") d = Some (call_script e tone lang).
Proof.
  unfold generate_content.
  generalize (instagram e tone lang), (facebook e tone lang),
    (reels e tone lang), (selling_points e tone lang),
    (whatsapp e tone lang), (qa lang), (call_script e tone lang).
  intros v1 v2 v3 v4 v5 v6 v7. vm_compute. repeat split.
Qed.

Lemma generate_content_keys (e : facts) (tone lang : pystr) :
  keys (generate_content e tone lang) = SECTIONS.
Proof. reflexivity. Qed.

(** Every section but [qa] is [apply_tone] of some text. *)
Lemma generate_content_toned (e : facts) (tone lang sec : pystr) :
  sec ∈ SECTIONS -> sec <> str "qa" ->
  exists text,
    dict_get sec (generate_content e tone lang)
    = Some (apply_tone tone lang text).
Proof.
  intros Hin Hqa.
  destruct (generate_content_entries e tone lang)
    as (H1 & H2 & H3 & H4 & H5 & _ & H7).
  unfold SECTIONS in Hin.
  repeat (apply elem_of_cons in Hin as [->|Hin]);
    [| | | | |done| |by apply elem_of_nil in Hin];
    eexists; (eassumption || (etransitivity; [eassumption|reflexivity])).
Qed.

(** C1: for every facts record, tone and language, [generate_content]
    returns a dict whose keys are exactly the seven fixed sections, and
    every section other than [qa] holds a non-empty string that starts with
    the marker of that tone in that language (the Polish marker for [pl],
    the English one for any other code). *)
Theorem generate_content_sections (e : facts) (tone lang : pystr) :
  keys (generate_content e tone lang) = SECTIONS
  /\ NoDup SECTIONS
  /\ length SECTIONS = 7%nat
  /\ forall sec, sec ∈ SECTIONS -> sec <> str "qa" ->
       exists value body,
         dict_get sec (generate_content e tone lang) = Some value
         /\ value = tone_prefix tone lang ++ body
         /\ startswith (tone_prefix tone lang) value = true
         /\ value <> [].
Proof.
  split; [apply generate_content_keys|].
  split; [apply (bool_decide_unpack _); by vm_compute|].
  split; [reflexivity|].
  intros sec Hin Hqa.
  destruct (generate_content_toned e tone lang sec Hin Hqa) as [text Hget].
  exists (apply_tone tone lang text), text.
  rewrite apply_tone_prefix in *.
  repeat split; [done|apply startswith_app|].
  pose proof (tone_prefix_nonempty tone lang).
  destruct (tone_prefix tone lang); done.
Qed.

(** C3: whatever the facts and the tone, the [qa] section is the fixed
    text of its language (the Polish one for [pl], the English one
    otherwise): ten question lines starting with [Q:], each followed by the
    placeholder line [A: ]; tone and facts have no effect on it. *)
Theorem qa_fixed (e1 e2 : facts) (tone1 tone2 lang : pystr) :
  dict_get (str "qa") (generate_content e1 tone1 lang) = Some (qa lang)
  /\ dict_get (str "qa") (generate_content e1 tone1 lang)
     = dict_get (str "qa") (generate_content e2 tone2 lang)
  /\ qa lang = (if decide (lang = str "pl") then qa (str "pl")
                else qa (str "en"))
  /\ length (qa_items lang) = 10%nat
  /\ split LF (qa lang)
     = flat_map (fun q => [str "Q: " ++ q; str "A: "]) (qa_items lang)
  /\ length (lines_starting (str "Q:") (qa lang)) = 10%nat
  /\ length (lines_starting (str "A:") (qa lang)) = 10%nat.
Proof.
  destruct (generate_content_entries e1 tone1 lang)
    as (_ & _ & _ & _ & _ & H1 & _).
  destruct (generate_content_entries e2 tone2 lang)
    as (_ & _ & _ & _ & _ & H2 & _).
  cbv zeta in H1, H2.
  split; [exact H1|]. split; [by rewrite H1, H2|].
  unfold lines_starting, qa, qa_items, t.
  destruct (decide (lang = str "pl")); vm_compute; repeat split.
Qed.

(** C4: for a tone other than aggressive, simple and storytelling, every
    section but [qa] starts with [Premium: ], in every language. *)
Theorem unknown_tone_premium (e : facts) (tone lang sec : pystr) :
  tone <> str "aggressive" -> tone <> str "simple" ->
  tone <> str "storytelling" ->
  sec ∈ SECTIONS -> sec <> str "qa" ->
  exists value body,
    dict_get sec (generate_content e tone lang) = Some value
    /\ value = str "Premium: " ++ body
    /\ startswith (str "Premium: ") value = true.
Proof.
  intros H1 H2 H3 Hin Hqa.
  destruct (generate_content_toned e tone lang sec Hin Hqa) as [text Hget].
  exists (apply_tone tone lang text), text.
  rewrite apply_tone_prefix in *.
  rewrite (tone_prefix_other tone lang H1 H2 H3) in *.
  split; [exact Hget|]. split; [reflexivity|apply startswith_app].
Qed.

Lemma unknown_tone_premium_witness :
  exists value body,
    dict_get (str "facebook_post")
             (generate_content no_facts (str "luxury") (str "pl"))
    = Some value
    /\ value = str "Premium: " ++ body
    /\ startswith (str "Premium: ") value = true.
Proof.
  apply (unknown_tone_premium no_facts (str "luxury") (str "pl")
           (str "facebook_post")).
  - vm_compute; discriminate.
  - vm_compute; discriminate.
  - vm_compute; discriminate.
  - apply (bool_decide_unpack _); vm_compute; exact I.
  - vm_compute; discriminate.
Defined.

(** C5: for the Marina Heights facts, tone [simple] and language [en], the
    [instagram_post] section starts with
    [Plain: Marina Heights in Downtown.]. *)
Theorem marina_heights_instagram :
  exists value,
    dict_get (str "instagram_post")
             (generate_content marina_heights (str "simple") (str "en"))
    = Some value
    /\ value
       = str "Plain: Marina Heights in Downtown.    Amenities: . Handover: . By ."
    /\ startswith (str "Plain: Marina Heights in Downtown.") value = true.
Proof.
  eexists. split; [vm_compute; reflexivity|]. split; vm_compute; reflexivity.
Qed.

(** A language code other than [pl] gives the English-language content. *)
Lemma generate_content_english (e : facts) (tone lang : pystr) :
  lang <> str "pl" -> generate_content e tone lang = english_content e tone.
Proof.
  intros Hpl.
  unfold generate_content, english_content, instagram, facebook, reels,
    selling_points, whatsapp, qa, qa_items, english_questions, call_script.
  rewrite !apply_tone_prefix. unfold t, tone_prefix. cbv zeta.
  destruct (decide (lang = str "pl")) as [|_]; [contradiction|].
  destruct (decide (str "en" = str "pl")) as [E|_];
    [vm_compute in E; discriminate|reflexivity].
Qed.

(** C10: a language code other than [pl] gives the output of [en], which
    is the English-language content: the English marker and sentence in
    every section and the English questions in [qa].  [build_outputs]
    stores that English content under every requested code other than
    [pl]. *)
Theorem other_language_is_english (e : facts) (tone lang : pystr)
    (languages : list pystr) :
  lang <> str "pl" ->
  generate_content e tone lang = generate_content e tone (str "en")
  /\ (lang ∈ languages ->
      dict_get lang (build_outputs e tone languages)
      = Some (generate_content e tone (str "en")))
  /\ generate_content e tone lang = english_content e tone
  /\ (lang ∈ languages ->
      dict_get lang (build_outputs e tone languages)
      = Some (english_content e tone)).
Proof.
  intros Hpl.
  assert (Hen : str "en" <> str "pl") by (vm_compute; discriminate).
  pose proof (generate_content_english e tone lang Hpl) as H1.
  pose proof (generate_content_english e tone (str "en") Hen) as H2.
  assert (Hget : lang ∈ languages ->
                 dict_get lang (build_outputs e tone languages)
                 = Some (english_content e tone)).
  { intros Hin. rewrite build_outputs_get.
    destruct (decide (lang ∈ languages)); [by rewrite H1|contradiction]. }
  split; [by rewrite H1, H2|]. split; [by rewrite H2|]. by split.
Qed.

Lemma other_language_is_english_witness :
  dict_get (str "fr")
    (build_outputs marina_heights (str "simple") [str "en"; str "fr"])
  = Some (english_content marina_heights (str "simple"))
  /\ dict_get (str "whatsapp_short")
       (english_content marina_heights (str "simple"))
     = Some (str "Plain: Short: Marina Heights in Downtown.  ").
Proof.
  destruct (other_language_is_english marina_heights (str "simple")
              (str "fr") [str "en"; str "fr"]) as (_ & _ & _ & H).
  - vm_compute; discriminate.
  - split; [|vm_compute; reflexivity].
    apply H, list_elem_of_further, list_elem_of_here.
Defined.

(** ** The extractor *)



(** [find] returns the first position at which [sub] occurs, and [-1]
    exactly when [sub in s] is false. *)
Lemma find_from_first (sub s : pystr) (i : Z) :
  if contains sub s
  then exists n : nat,
         find_from sub s i = i + Z.of_nat n
         /\ startswith sub (drop n s) = true
         /\ forall j : nat, (j < n)%nat -> startswith sub (drop j s) = false
  else find_from sub s i = -1.
Proof.
  revert i. induction s as [|c s IH]; intros i; simpl.
  - destruct (startswith sub []) eqn:E; simpl.
    + exists 0%nat. rewrite Z.add_0_r. repeat split; [done|]. lia.
    + done.
  - destruct (startswith sub (c :: s)) eqn:E; simpl.
    + exists 0%nat. rewrite Z.add_0_r. repeat split; [done|]. lia.
    + specialize (IH (i + 1)). destruct (contains sub s); [|done].
      destruct IH as (n & Hf & Hs & Hmin). exists (S n).
      split; [lia|]. split; [done|].
      intros [|j] Hj; [done|]. simpl. apply Hmin. lia.
Qed.

(** A slice whose bounds are not negative. *)
Lemma slice_nat (s : pystr) (k m : nat) :
  slice s (Z.of_nat k) (Z.of_nat k + Z.of_nat m) = take m (drop k s).
Proof.
  unfold slice, clamp.
  destruct (Z.ltb_spec (Z.of_nat k) 0) as [?|_]; [lia|].
  destruct (Z.ltb_spec (Z.of_nat k + Z.of_nat m) 0) as [?|_]; [lia|].
  destruct (decide (k <= length s)%nat) as [Hk|Hk].
  - rewrite (Z.min_l (Z.of_nat k)) by lia. rewrite Nat2Z.id.
    destruct (decide (k + m <= length s)%nat) as [Hm|Hm].
    + rewrite Z.min_l by lia. f_equal. lia.
    + rewrite Z.min_r by lia.
      rewrite !take_ge; [done| |]; rewrite length_drop; lia.
  - rewrite !Z.min_r by lia. rewrite Z.sub_diag.
    rewrite (drop_ge s k) by lia. by rewrite take_nil.
Qed.

(** The first piece of [split] is the text before the first line feed. *)
Lemma first_piece_split (s : pystr) :
  (LF ∉ first_piece (split LF s))
  /\ (s = first_piece (split LF s)
      \/ exists rest, s = first_piece (split LF s) ++ LF :: rest).
Proof.
  induction s as [|c s [IHn IHs]]; simpl.
  - split; [apply not_elem_of_nil|by left].
  - destruct (decide (c = LF)) as [->|Hc]; simpl.
    + split; [apply not_elem_of_nil|]. right. by exists s.
    + destruct (split LF s) as [|piece rest] eqn:E; simpl in *.
      * split; [rewrite list_elem_of_singleton; congruence|].
        destruct IHs as [->|[r ->]]; [by left|]. right. by exists r.
      * split; [rewrite elem_of_cons; intros [?|?]; congruence|].
        destruct IHs as [->|[r ->]]; [by left|]. right. by exists r.
Qed.

Lemma split_nonempty (sep : N) (s : pystr) : split sep s <> [].
Proof.
  destruct s as [|c s]; simpl; [done|].
  destruct (decide (c = sep)); [done|]. by destruct (split sep s).
Qed.

(** What one round of the extractor's loop leaves in [data[key]]. *)
Lemma labelled_value (lower : pystr -> pystr) (key text : pystr) :
  if contains key (lower text)
  then exists start : nat,
         find key (lower text) = Z.of_nat start
         /\ startswith key (drop start (lower text)) = true
         /\ (forall j : nat, (j < start)%nat ->
               startswith key (drop j (lower text)) = false)
         /\ (LF ∉ labelled lower key text)
         /\ (take 160 (drop start text) = labelled lower key text
             \/ exists rest,
                  take 160 (drop start text)
                  = labelled lower key text ++ LF :: rest)
  else labelled lower key text = [].
Proof.
  unfold labelled, find.
  pose proof (find_from_first key (lower text) 0) as Hf.
  destruct (contains key (lower text)); [|done].
  destruct Hf as (n & Hf & Hs & Hmin). rewrite Z.add_0_l in Hf.
  exists n. rewrite Hf. repeat split; [done|done| |].
  - apply (first_piece_split _).
  - change 160 with (Z.of_nat 160). rewrite slice_nat.
    apply (first_piece_split _).
Qed.



(** ** The endpoints *)

(** C7: an upload whose lower-cased file name extension is none of
    [.pdf], [.png], [.jpg], [.jpeg] is answered with status 400, and
    leaves the service as it was: no project is stored and no file is
    written. *)
Theorem upload_unsupported (lower : pystr -> pystr) (file : UploadFile)
    (tone uuid_hex : pystr) (oid : list N) (w : world) :
  lower (snd (splitext (filename file)))
    ∉ [str ".pdf"; str ".png"; str ".jpg"; str ".jpeg"] ->
  process_upload lower file tone uuid_hex oid w
  = (HTTPException 400 (str "Unsupported file type"), w)
  /\ status_of (fst (process_upload lower file tone uuid_hex oid w)) = 400
  /\ db_project (snd (process_upload lower file tone uuid_hex oid w))
     = db_project w.
Proof.
  intros Hext.
  assert (H : process_upload lower file tone uuid_hex oid w
              = (HTTPException 400 (str "Unsupported file type"), w)).
  { unfold process_upload. by rewrite bool_decide_eq_false_2. }
  by rewrite H.
Qed.

Lemma upload_unsupported_witness :
  let file := {| filename := str "notes.exe"; file_bytes := [] |} in
  process_upload ascii_lower file (str "premium") (str "0f1e2d") oid_1
                 one_project
  = (HTTPException 400 (str "Unsupported file type"), one_project)
  /\ status_of (fst (process_upload ascii_lower file (str "premium")
                       (str "0f1e2d") oid_1 one_project)) = 400
  /\ db_project (snd (process_upload ascii_lower file (str "premium")
                        (str "0f1e2d") oid_1 one_project))
     = db_project one_project.
Proof.
  apply (upload_unsupported ascii_lower
           {| filename := str "notes.exe"; file_bytes := [] |}
           (str "premium") (str "0f1e2d") oid_1 one_project).
  apply (bool_decide_unpack _). vm_compute. exact I.
Defined.

(** C8, as stated, fails: the id [abc] identifies no stored record, yet
    [regenerate] does not answer 404; the conversion of the id raises and
    the request ends as a server error. *)
Lemma regenerate_malformed_id :
  let payload := {| regen_tone := str "simple";
                    regen_languages := [str "en"] |} in
  ~ identifies one_project (str "abc")
  /\ fst (regenerate (str "abc") payload 0%N one_project) = Unhandled
  /\ status_of (fst (regenerate (str "abc") payload 0%N one_project)) <> 404.
Proof.
  cbv zeta. split.
  - intros (oid & doc & H & _). vm_compute in H. discriminate.
  - split; [reflexivity|]. vm_compute. discriminate.
Qed.

Lemma hex_not_space (c : N) :
  is_Some (hex_value c) -> is_space c = false.
Proof.
  unfold hex_value, is_space. intros H. apply orb_false_intro.
  - apply bool_decide_eq_false_2. intros ->. vm_compute in H.
    by apply is_Some_None in H.
  - destruct (N.leb_spec 9 c); [|done]. destruct (N.leb_spec c 13); [|done].
    exfalso.
    destruct (N.leb_spec 48 c); [lia|]. cbn [andb] in H.
    destruct (N.leb_spec 97 c); [lia|]. cbn [andb] in H.
    destruct (N.leb_spec 65 c); [lia|]. cbn [andb] in H.
    by apply is_Some_None in H.
Qed.

(** [bytes.fromhex] reads every string of an even number of hexadecimal
    digits. *)
Lemma fromhex_digits (n : nat) (s : pystr) :
  length s = (2 * n)%nat -> Forall (fun c => is_Some (hex_value c)) s ->
  is_Some (fromhex s).
Proof.
  revert s. induction n as [|n IH]; intros s Hlen Hs.
  - destruct s; [by eexists|done].
  - destruct s as [|c [|d s]]; simpl in Hlen; [lia|lia|].
    apply Forall_cons in Hs as [Hc Hs]. apply Forall_cons in Hs as [Hd Hs].
    destruct (IH s) as [bs Hbs]; [lia|done|].
    destruct Hc as [h Hh]. destruct Hd as [l Hl].
    cbn [fromhex]. rewrite hex_not_space by (by eexists).
    rewrite Hh, Hl, Hbs. by eexists.
Qed.

(** C8, amended: for a project id that identifies no stored record,
    [regenerate] writes nothing.  It answers 404 when [ObjectId] accepts
    the id, as it does every id of 24 hexadecimal digits, and ends as a
    server error when [ObjectId] rejects the id, as it does every id whose
    length is not 24. *)
Theorem regenerate_unknown_id (project_id : pystr)
    (payload : RegenerateRequest) (now : N) (w : world) :
  ~ identifies w project_id ->
  snd (regenerate project_id payload now w) = w
  /\ fst (regenerate project_id payload now w)
     = match ObjectId project_id with
       | Some _ => HTTPException 404 (str "Not found")
       | None => Unhandled
       end
  /\ status_of (fst (regenerate project_id payload now w))
     = match ObjectId project_id with Some _ => 404 | None => 500 end
  /\ (length project_id = 24%nat ->
      Forall (fun c => is_Some (hex_value c)) project_id ->
      is_Some (ObjectId project_id))
  /\ (length project_id <> 24%nat -> ObjectId project_id = None).
Proof.
  intros Hid.
  assert (H : snd (regenerate project_id payload now w) = w
              /\ fst (regenerate project_id payload now w)
                 = match ObjectId project_id with
                   | Some _ => HTTPException 404 (str "Not found")
                   | None => Unhandled
                   end).
  { unfold regenerate.
    destruct (ObjectId project_id) as [oid|] eqn:Hoid; [|done].
    destruct (db_project w !! oid) as [doc|] eqn:Hdoc; [|done].
    exfalso. apply Hid. by exists oid, doc. }
  destruct H as [H1 H2]. split; [done|]. split; [done|].
  split; [rewrite H2; by destruct (ObjectId project_id)|].
  unfold ObjectId. split.
  - intros Hlen Hhex. destruct (decide (length project_id = 24%nat)); [|done].
    by apply (fromhex_digits 12).
  - intros Hlen. by destruct (decide (length project_id = 24%nat)).
Qed.

Lemma regenerate_unknown_id_witness :
  let project_id := str "00000000000000000000000a" in
  let payload := {| regen_tone := str "simple";
                    regen_languages := [str "en"] |} in
  snd (regenerate project_id payload 5%N one_project) = one_project
  /\ fst (regenerate project_id payload 5%N one_project)
     = HTTPException 404 (str "Not found").
Proof.
  destruct (regenerate_unknown_id (str "00000000000000000000000a")
              {| regen_tone := str "simple"; regen_languages := [str "en"] |}
              5%N one_project) as (H1 & H2 & _).
  - intros (oid & doc & H1 & H2). vm_compute in H1.
    injection H1 as <-. vm_compute in H2. discriminate.
  - split; [exact H1|exact H2].
Defined.

Lemma join_first (sep p : pystr) (parts : list pystr) :
  exists rest, join sep (p :: parts) = p ++ rest.
Proof.
  destruct parts as [|q parts]; simpl.
  - exists []. by rewrite app_nil_r.
  - by eexists.
Qed.

Lemma encode_app (s1 s2 : pystr) :
  Utf8.encode (s1 ++ s2) = Utf8.encode s1 ++ Utf8.encode s2.
Proof. unfold Utf8.encode. apply flat_map_app. Qed.

(** The text of an export begins with the title line. *)
Lemma combined_text_title (upper : pystr -> pystr) (doc : document) :
  exists rest,
    combined_text upper doc
    = (str "Title: " ++ default (str "None") (doc_title doc)) ++ rest.
Proof. unfold combined_text. apply join_first. Qed.

(** What [export] answers for a stored project and a format other than
    [json]. *)
Lemma export_stored (lower upper : pystr -> pystr) (project_id : pystr)
    (oid : list N) (doc : document) (query : ExportQuery) (w : world)
    (ext media : pystr) :
  ObjectId project_id = Some oid -> db_project w !! oid = Some doc ->
  lower (format query) = ext ->
  (ext, media) ∈ [ (str "txt", str "text/plain");
                   (str "pdf", str "application/pdf");
                   (str "docx", str "application/vnd.openxmlformats-officedocument.wordprocessingml.document") ] ->
  export lower upper project_id query w
  = (Return (StreamingResponse
               (Utf8.encode (combined_text upper doc)) media
               [(str "Content-Disposition",
                 str "attachment; filename=export." ++ ext)]), w).
Proof.
  intros Hoid Hdoc Hfmt Hin. unfold export. rewrite Hoid, Hdoc, Hfmt.
  repeat (apply elem_of_cons in Hin as [Hin|Hin]);
    [..|by apply elem_of_nil in Hin];
    injection Hin as -> ->.
  - destruct (decide (str "txt" = str "json")) as [E|_];
      [vm_compute in E; discriminate|].
    destruct (decide (str "txt" = str "txt")) as [_|E]; [|done].
    reflexivity.
  - destruct (decide (str "pdf" = str "json")) as [E|_];
      [vm_compute in E; discriminate|].
    destruct (decide (str "pdf" = str "txt")) as [E|_];
      [vm_compute in E; discriminate|].
    destruct (decide (str "pdf" = str "pdf")) as [_|E]; [|done].
    reflexivity.
  - destruct (decide (str "docx" = str "json")) as [E|_];
      [vm_compute in E; discriminate|].
    destruct (decide (str "docx" = str "txt")) as [E|_];
      [vm_compute in E; discriminate|].
    destruct (decide (str "docx" = str "pdf")) as [E|_];
      [vm_compute in E; discriminate|].
    destruct (decide (str "docx" = str "docx")) as [_|E]; [|done].
    reflexivity.
Qed.

Lemma join_concat (sep p : pystr) (parts : list pystr) :
  join sep (p :: parts) = p ++ concat (map (fun q => sep ++ q) parts).
Proof.
  revert p. induction parts as [|q parts IH]; intros p.
  - simpl. by rewrite app_nil_r.
  - change (join sep (p :: q :: parts))
      with (p ++ sep ++ join sep (q :: parts)).
    rewrite IH. simpl. by rewrite <- !app_assoc.
Qed.

Lemma concat_map_member {A} (f : A -> pystr) (x : A) (l : list A) :
  x ∈ l -> exists pre post, concat (map f l) = pre ++ f x ++ post.
Proof.
  intros (l1 & l2 & ->)%list_elem_of_split.
  exists (concat (map f l1)), (concat (map f l2)).
  by rewrite map_app, concat_app.
Qed.

(** The text that [combined_text] builds line by line is the export text
    of the specification. *)
Lemma combined_text_export_text (upper : pystr -> pystr) (doc : document) :
  combined_text upper doc = export_text upper doc.
Proof.
  unfold combined_text, export_text. rewrite join_concat, <- app_assoc.
  do 2 f_equal. induction (doc_outputs doc) as [|[lang sections] outs IH];
    [done|].
  cbn [flat_map map concat]. rewrite map_app, concat_app, IH.
  f_equal. cbn [map concat]. rewrite map_map.
  change [LF; LF] with ([LF] ++ [LF]). rewrite <- !app_assoc.
  do 5 f_equal. f_equal. apply map_ext. intros [sec val].
  by rewrite <- !app_assoc.
Qed.

(** C9: for a stored project, [export] with format txt, pdf and docx
    returns the same bytes: the UTF-8 encoding of the export text, which
    begins with the title line and has, for each language of the outputs,
    its header and after it each of its sections with its content.  The
    three responses differ in the media type and in the file name of the
    attachment only, and none changes the store. *)
Theorem export_same_text (lower upper : pystr -> pystr) (project_id : pystr)
    (oid : list N) (doc : document) (w : world)
    (q_txt q_pdf q_docx : ExportQuery) :
  ObjectId project_id = Some oid -> db_project w !! oid = Some doc ->
  lower (format q_txt) = str "txt" ->
  lower (format q_pdf) = str "pdf" ->
  lower (format q_docx) = str "docx" ->
  let body := Utf8.encode (export_text upper doc) in
  export lower upper project_id q_txt w
  = (Return (StreamingResponse body (str "text/plain")
               [(str "Content-Disposition",
                 str "attachment; filename=export.txt")]), w)
  /\ export lower upper project_id q_pdf w
     = (Return (StreamingResponse body (str "application/pdf")
                  [(str "Content-Disposition",
                    str "attachment; filename=export.pdf")]), w)
  /\ export lower upper project_id q_docx w
     = (Return (StreamingResponse body
                  (str "application/vnd.openxmlformats-officedocument.wordprocessingml.document")
                  [(str "Content-Disposition",
                    str "attachment; filename=export.docx")]), w)
  /\ (exists rest,
        body = Utf8.encode (str "Title: "
                            ++ default (str "None") (doc_title doc)) ++ rest)
  /\ forall lang sections sec val,
       (lang, sections) ∈ doc_outputs doc -> (sec, val) ∈ sections ->
       exists pre mid post,
         body = pre
                ++ Utf8.encode (str "=== " ++ upper lang ++ str " ===")
                ++ mid
                ++ Utf8.encode (str "## " ++ sec ++ [LF] ++ val)
                ++ post.
Proof.
  intros Hoid Hdoc Ht Hp Hd body.
  split; [|split; [|split; [|split]]].
  - rewrite (export_stored lower upper project_id oid doc q_txt w
               (str "txt") (str "text/plain") Hoid Hdoc Ht);
      [by rewrite combined_text_export_text|].
    apply list_elem_of_here.
  - rewrite (export_stored lower upper project_id oid doc q_pdf w
               (str "pdf") (str "application/pdf") Hoid Hdoc Hp);
      [by rewrite combined_text_export_text|].
    apply list_elem_of_further, list_elem_of_here.
  - rewrite (export_stored lower upper project_id oid doc q_docx w
               (str "docx")
               (str "application/vnd.openxmlformats-officedocument.wordprocessingml.document")
               Hoid Hdoc Hd); [by rewrite combined_text_export_text|].
    do 2 apply list_elem_of_further. apply list_elem_of_here.
  - unfold body, export_text. rewrite app_assoc, encode_app. by eexists.
  - intros lang sections sec val Hlang Hsec. unfold body, export_text.
    destruct (concat_map_member
                (fun '(lang, sections) =>
                   [LF; LF] ++ str "=== " ++ upper lang ++ str " ==="
                   ++ concat
                        (map (fun '(sec, val) =>
                                [LF; LF] ++ str "## " ++ sec ++ [LF] ++ val)
                             sections))
                (lang, sections) (doc_outputs doc) Hlang)
      as (o1 & o2 & ->).
    destruct (concat_map_member
                (fun '(sec, val) =>
                   [LF; LF] ++ str "## " ++ sec ++ [LF] ++ val)
                (sec, val) sections Hsec) as (s1 & s2 & ->).
    exists (Utf8.encode (str "Title: " ++ default (str "None") (doc_title doc)
                         ++ o1 ++ [LF; LF])),
           (Utf8.encode (s1 ++ [LF; LF])), (Utf8.encode (s2 ++ o2)).
    rewrite <- !encode_app. f_equal.
    change [LF; LF] with ([LF] ++ [LF]).
    by rewrite <- !app_assoc.
Qed.

Lemma export_same_text_witness :
  exists body,
    fst (export ascii_lower ascii_upper (oid_str oid_1)
           {| format := str "txt" |} one_project)
    = Return (StreamingResponse body (str "text/plain")
                [(str "Content-Disposition",
                  str "attachment; filename=export.txt")])
    /\ fst (export ascii_lower ascii_upper (oid_str oid_1)
              {| format := str "PDF" |} one_project)
       = Return (StreamingResponse body (str "application/pdf")
                   [(str "Content-Disposition",
                     str "attachment; filename=export.pdf")]).
Proof.
  destruct (export_same_text ascii_lower ascii_upper (oid_str oid_1) oid_1
              brochure_project one_project {| format := str "txt" |}
              {| format := str "PDF" |} {| format := str "docx" |})
    as (H1 & H2 & _); [vm_compute; reflexivity ..|].
  eexists. rewrite H1, H2. split; reflexivity.
Defined.

(** ** The languages of stored outputs *)


Lemma build_outputs_LANGS (e : facts) (tone : pystr) :
  keys (build_outputs e tone LANGS) = LANGS.
Proof.
  unfold build_outputs, LANGS. cbn [foldl dict_set].
  destruct (decide (str "pl" = str "en")) as [E|_];
    [vm_compute in E; discriminate|reflexivity].
Qed.












(** * Further properties of the code *)

(** ** The extractor, continued *)

(** X1: whatever the input, [simple_extract] returns a record with all
    nine fields present, and each of the four labelled fields holds at most
    160 characters and no line feed. *)
Theorem labelled_fields_bounded (lower : pystr -> pystr) (text : pystr) :
  let data := simple_extract lower text in
  Forall (fun field : option pystr =>
            exists value,
              field = Some value
              /\ (length value <= 160)%nat /\ (LF ∉ value))
         [location data; handover data; developer data; project data]
  /\ is_Some (prices data) /\ is_Some (sizes data)
  /\ is_Some (payment_plan data) /\ is_Some (amenities data)
  /\ usp data = Some [str "Prime location"; str "Strong ROI potential"].
Proof.
  assert (Hb : forall key,
             (length (labelled lower key text) <= 160)%nat
             /\ (LF ∉ labelled lower key text)).
  { intros key. pose proof (labelled_value lower key text) as H.
    destruct (contains key (lower text)).
    - destruct H as (start & _ & _ & _ & Hlf & Hcut). split; [|done].
      assert (Hlen : (length (take 160 (drop start text)) <= 160)%nat)
        by (rewrite length_take; lia).
      destruct Hcut as [Hcut|[rest Hcut]]; rewrite Hcut in Hlen;
        [done|]. rewrite length_app in Hlen. lia.
    - rewrite H. split; [simpl; lia|apply not_elem_of_nil]. }
  cbv zeta. unfold simple_extract; simpl.
  split; [|by repeat split; eexists].
  repeat (constructor; [eexists; split; [reflexivity|apply Hb]|]).
  constructor.
Qed.

Lemma first_piece_keeps (p s : pystr) :
  LF ∉ p -> exists q, first_piece (split LF (p ++ s)) = p ++ q.
Proof.
  induction p as [|c p IH]; intros Hp; simpl.
  - by eexists.
  - apply not_elem_of_cons in Hp as [Hc Hp].
    destruct (decide (c = LF)); [done|].
    destruct (IH Hp) as [q Hq].
    destruct (split LF (p ++ s)) as [|piece rest] eqn:E.
    + by apply split_nonempty in E.
    + simpl in *. exists q. by rewrite Hq.
Qed.

Lemma ascii_lower_LF (u : pystr) : LF ∈ u -> LF ∈ ascii_lower u.
Proof.
  intros H. unfold ascii_lower. apply list_elem_of_In, in_map_iff.
  exists LF. split; [reflexivity|by apply list_elem_of_In].
Qed.

(** X2: on a text that lower-cases as ASCII text does, a labelled field
    that is filled starts with its label, up to case. *)
Theorem labelled_starts_with_label (lower : pystr -> pystr)
    (text key : pystr) :
  lower text = ascii_lower text ->
  key ∈ labels ->
  contains key (lower text) = true ->
  startswith key (ascii_lower (labelled lower key text)) = true.
Proof.
  intros Hlow Hkey Hin.
  assert (Hk : (LF ∉ key) /\ (length key <= 160)%nat).
  { unfold labels in Hkey.
    repeat (apply elem_of_cons in Hkey as [->|Hkey]);
      [..|by apply elem_of_nil in Hkey];
      (split; [apply (bool_decide_unpack _); vm_compute; exact I
              |vm_compute; lia]). }
  destruct Hk as [Hlf Hlen].
  pose proof (find_from_first key (lower text) 0) as Hf.
  unfold labelled, find. rewrite Hin in *.
  destruct Hf as (n & Hf & Hs & _). rewrite Hf, Z.add_0_l.
  change 160 with (Z.of_nat 160). rewrite slice_nat.
  rewrite Hlow in Hs. unfold ascii_lower in Hs at 1.
  rewrite skipn_map in Hs. apply startswith_prefix in Hs as [r Hr].
  apply map_eq_app in Hr as (u1 & u2 & Hu & H1 & H2).
  assert (Hu1 : LF ∉ u1).
  { intros Hc. apply Hlf. rewrite <- H1. by apply ascii_lower_LF. }
  assert (Hl1 : length u1 = length key) by (by rewrite <- H1, length_map).
  rewrite Hu, take_app_ge by lia.
  destruct (first_piece_keeps u1 (take (160 - length u1) u2) Hu1)
    as [q Hq].
  rewrite Hq. unfold ascii_lower. rewrite map_app.
  apply startswith_prefix. eexists. by rewrite H1.
Qed.

Lemma labelled_starts_with_label_witness :
  startswith (str "project")
    (ascii_lower (labelled ascii_lower (str "project")
                    (filename brochure))) = true.
Proof.
  apply (labelled_starts_with_label ascii_lower (filename brochure)
           (str "project")).
  - reflexivity.
  - apply (bool_decide_unpack _). vm_compute. exact I.
  - vm_compute. reflexivity.
Defined.

(** ** The generator, continued *)

Lemma or_str_or_str (x : option pystr) :
  or_str (Some (or_str x (str "New Development"))) (str "New Development")
  = or_str x (str "New Development").
Proof. by destruct x as [[|c s]|]. Qed.

(** X3: an absent key and an empty value give the same output, and so do
    an absent or empty project name and the name [New Development]:
    [generate_content] sees a fact record only through its defaults. *)
Theorem generate_content_defaults (e : facts) (tone lang : pystr) :
  generate_content (with_defaults e) tone lang = generate_content e tone lang.
Proof.
  unfold generate_content, instagram, facebook, reels, selling_points,
    whatsapp, call_script, name, location_, prices_, sizes_, payment,
    amenities_, usp_, handover_, developer_, with_defaults.
  cbn [location prices sizes payment_plan amenities usp handover developer
       project default].
  by rewrite or_str_or_str.
Qed.

(** ** [build_outputs], continued *)

Lemma keys_dict_set_order {V} (k : pystr) (v : V) (d : dict V) :
  keys (dict_set k v d)
  = if decide (k ∈ keys d) then keys d else keys d ++ [k].
Proof.
  unfold keys. induction d as [|[k' v'] d IH]; simpl.
  - destruct (decide (k ∈ [])) as [H|_]; [by apply elem_of_nil in H|done].
  - destruct (decide (k = k')) as [->|Hne]; simpl.
    + destruct (decide (k' ∈ k' :: map fst d)) as [_|H]; [done|].
      exfalso. apply H, list_elem_of_here.
    + rewrite IH. destruct (decide (k ∈ map fst d)) as [Hin|Hnin].
      * destruct (decide (k ∈ k' :: map fst d)) as [_|H]; [done|].
        exfalso. by apply H, list_elem_of_further.
      * destruct (decide (k ∈ k' :: map fst d)) as [H|_]; [|done].
        apply elem_of_cons in H as [?|?]; done.
Qed.

Lemma fill_keys_nodup {V} (f : pystr -> V) (ks : list pystr) (d : dict V) :
  NoDup (keys d) ->
  NoDup (keys (foldl (fun out l => dict_set l (f l) out) d ks)).
Proof.
  revert d. induction ks as [|l ks IH]; intros d Hd; simpl; [done|].
  apply IH. rewrite keys_dict_set_order.
  destruct (decide (l ∈ keys d)); [done|].
  apply NoDup_app. split; [done|]. split; [|apply NoDup_singleton].
  intros x Hx ->%list_elem_of_singleton. done.
Qed.

Lemma fill_keys_order {V} (f : pystr -> V) (ks : list pystr) (d : dict V) :
  NoDup ks -> (forall k, k ∈ ks -> k ∉ keys d) ->
  keys (foldl (fun out l => dict_set l (f l) out) d ks) = keys d ++ ks.
Proof.
  revert d. induction ks as [|l ks IH]; intros d Hks Hd; simpl.
  - by rewrite app_nil_r.
  - apply NoDup_cons in Hks as [Hl Hks].
    assert (Hk : keys (dict_set l (f l) d) = keys d ++ [l]).
    { rewrite keys_dict_set_order. destruct (decide (l ∈ keys d)) as [H|_];
        [|done]. exfalso. by apply (Hd l), H; apply list_elem_of_here. }
    rewrite IH, Hk; [by rewrite <- app_assoc|done|].
    intros k Hin. rewrite Hk. intros [H| ->%list_elem_of_singleton]%elem_of_app.
    + by apply (Hd k); [apply list_elem_of_further|].
    + done.
Qed.

(** X4: the outputs of [build_outputs] have each requested language code
    once, whatever the repetitions in the request; when no code is
    repeated the keys are the requested codes in the order given.  The
    entry of each requested code is the output of [generate_content] for
    it, and no other code has an entry. *)
Theorem build_outputs_order (e : facts) (tone : pystr)
    (languages : list pystr) :
  NoDup (keys (build_outputs e tone languages))
  /\ (NoDup languages -> keys (build_outputs e tone languages) = languages)
  /\ forall lang,
       dict_get lang (build_outputs e tone languages)
       = if decide (lang ∈ languages)
         then Some (generate_content e tone lang) else None.
Proof.
  split; [|split].
  - unfold build_outputs. apply fill_keys_nodup. apply NoDup_nil_2.
  - intros Hnd. unfold build_outputs.
    rewrite fill_keys_order; [done|done|]. intros k _. apply not_elem_of_nil.
  - intros lang. apply build_outputs_get.
Qed.


(** ** Identifiers *)

Lemma hex_digit_value (h : N) :
  (h < 16)%N ->
  hex_value (hex_digit h) = Some h /\ is_space (hex_digit h) = false.
Proof.
  intros H. assert (Hn : (N.to_nat h < 16)%nat) by lia.
  rewrite <- (N2Nat.id h). revert Hn. generalize (N.to_nat h).
  clear H. intros n Hn.
  do 16 (destruct n as [|n]; [vm_compute; done|]). lia.
Qed.

Lemma fromhex_oid_str (oid : list N) :
  Forall (fun b => (b < 256)%N) oid -> fromhex (oid_str oid) = Some oid.
Proof.
  induction 1 as [|b oid Hb _ IH]; [done|].
  change (oid_str (b :: oid))
    with (hex_digit (b / 16) :: hex_digit (b mod 16) :: oid_str oid).
  assert (H1 : (b / 16 < 16)%N) by (apply N.Div0.div_lt_upper_bound; lia).
  assert (H2 : (b mod 16 < 16)%N) by (apply N.mod_lt; lia).
  destruct (hex_digit_value _ H1) as [Hv1 Hs1].
  destruct (hex_digit_value _ H2) as [Hv2 _].
  cbn [fromhex]. rewrite Hs1, Hv1, Hv2, IH. f_equal. f_equal.
  symmetry. apply N.div_mod. lia.
Qed.

Lemma length_oid_str (oid : list N) :
  length (oid_str oid) = (2 * length oid)%nat.
Proof. induction oid as [|b oid IH]; simpl; [done|]. rewrite IH. lia. Qed.

(** The string form of a generated identifier converts back to it. *)
Lemma ObjectId_oid_str (oid : list N) :
  generated_oid oid -> ObjectId (oid_str oid) = Some oid.
Proof.
  intros [Hlen Hb]. unfold ObjectId.
  rewrite length_oid_str, Hlen. simpl. by apply fromhex_oid_str.
Qed.

(** ** The ingestion endpoints *)

Lemma slice_to_take (s : pystr) (b : Z) :
  0 <= b -> slice_to s b = take (Z.to_nat b) s.
Proof.
  intros Hb. unfold slice_to.
  pose proof (slice_nat s 0 (Z.to_nat b)) as H.
  rewrite Z2Nat.id in H by done. exact H.
Qed.

(** X5: [process_url] answers a failed fetch with status 400 and leaves
    the service as it was; of a fetched text it uses the first 5000
    characters only. *)
Theorem process_url_fetch (lower : pystr -> pystr)
    (payload : ProcessURLRequest) (oid : list N) (w : world) :
  (forall e,
     process_url lower payload (inr e) oid w
     = (HTTPException 400 (str "Failed to fetch: " ++ e), w))
  /\ (forall text,
        process_url lower payload (inl text) oid w
        = process_url lower payload (inl (take 5000 text)) oid w).
Proof.
  split; [done|]. intros text. unfold process_url.
  rewrite !slice_to_take by lia.
  replace (Z.to_nat 5000) with 5000%nat by (vm_compute; reflexivity).
  by rewrite take_idemp.
Qed.

(** X6: an upload with an accepted extension and a fresh identifier
    stores one document and writes one file under the upload directory;
    the id it returns finds that document again.  The document has
    outputs for [en] and [pl], the facts of the file name, the requested
    tone and no update stamp. *)
Theorem upload_then_get (lower : pystr -> pystr) (file : UploadFile)
    (tone uuid_hex : pystr) (oid : list N) (w : world) :
  lower (snd (splitext (filename file)))
    ∈ [str ".pdf"; str ".png"; str ".jpg"; str ".jpeg"] ->
  generated_oid oid -> db_project w !! oid = None ->
  exists doc,
    let saved :=
      path_join UPLOAD_DIR
        (uuid_hex ++ lower (snd (splitext (filename file)))) in
    let w' := {| db_project := <[oid := doc]> (db_project w);
                 files := files w ++ [(saved, file_bytes file)] |} in
    process_upload lower file tone uuid_hex oid w
    = (Return (oid_str oid, doc), w')
    /\ get_project (oid_str oid) w' = (Return (oid_str oid, doc), w')
    /\ keys (doc_outputs doc) = LANGS
    /\ doc_extracted doc = simple_extract lower (filename file)
    /\ doc_tone doc = tone
    /\ doc_file_path doc = Some saved
    /\ doc_updated_at doc = None.
Proof.
  intros Hext Hoid Hfresh. eexists. cbv zeta.
  split; [|split].
  - unfold process_upload. rewrite bool_decide_eq_true_2 by done.
    unfold create_document. cbn [negb db_project files].
    rewrite Hfresh. reflexivity.
  - unfold get_project. rewrite (ObjectId_oid_str oid Hoid).
    cbn [db_project]. by rewrite lookup_insert_eq.
  - split; [apply build_outputs_LANGS|repeat split].
Qed.

Lemma upload_then_get_witness :
  exists doc,
    fst (process_upload ascii_lower brochure (str "premium") (str "0f1e2d")
           oid_1 initial) = Return (oid_str oid_1, doc)
    /\ keys (doc_outputs doc) = LANGS.
Proof.
  destruct (upload_then_get ascii_lower brochure (str "premium")
              (str "0f1e2d") oid_1 initial) as (doc & H1 & _ & H3 & _).
  - apply (bool_decide_unpack _). vm_compute. exact I.
  - split; [reflexivity|]. apply (bool_decide_unpack _). vm_compute. exact I.
  - reflexivity.
  - exists doc. cbv zeta in H1. rewrite H1. by split.
Defined.

(** ** The mutations *)

(** X7: [regenerate] overwrites what an earlier [update_outputs] or
    [regenerate] stored: its answer and the state it leaves are the same
    as if the earlier request had not been made. *)
Theorem regenerate_overrides (project_id : pystr)
    (payload : RegenerateRequest) (now : N) (w : world)
    (edit : OutputsPayload) (earlier : RegenerateRequest) (now0 : N) :
  regenerate project_id payload now
    (snd (update_outputs project_id edit now0 w))
  = regenerate project_id payload now w
  /\ regenerate project_id payload now
       (snd (regenerate project_id earlier now0 w))
     = regenerate project_id payload now w.
Proof.
  unfold regenerate, update_outputs.
  destruct (ObjectId project_id) as [oid|]; [|done].
  destruct (db_project w !! oid) as [doc|] eqn:Hdoc;
    cbn [snd db_project files]; [|by rewrite Hdoc].
  rewrite !lookup_insert_eq. cbn. by rewrite !insert_insert_eq.
Qed.

(** X8: [update_outputs] on a stored project stores the payload as it
    is, whatever its keys, and stamps the update time; the tone and the
    origin of the document stay, and [get_project] returns the result. *)
Theorem update_outputs_then_get (project_id : pystr) (oid : list N)
    (doc : document) (payload : OutputsPayload) (now : N) (w : world) :
  ObjectId project_id = Some oid -> db_project w !! oid = Some doc ->
  exists doc',
    fst (update_outputs project_id payload now w) = Return (str "ok")
    /\ get_project project_id (snd (update_outputs project_id payload now w))
       = (Return (oid_str oid, doc'),
          snd (update_outputs project_id payload now w))
    /\ doc_outputs doc' = payload_outputs payload
    /\ doc_updated_at doc' = Some now
    /\ doc_tone doc' = doc_tone doc
    /\ same_origin doc doc'.
Proof.
  intros Hoid Hdoc. eexists. unfold update_outputs, get_project.
  rewrite Hoid, Hdoc. cbn [fst snd db_project].
  rewrite lookup_insert_eq. repeat split.
Qed.

Lemma update_outputs_then_get_witness :
  exists doc',
    fst (update_outputs (oid_str oid_1)
           {| payload_outputs := [(str "de", [(str "note", str "Hallo")])] |}
           9%N one_project) = Return (str "ok")
    /\ doc_outputs doc' = [(str "de", [(str "note", str "Hallo")])].
Proof.
  destruct (update_outputs_then_get (oid_str oid_1) oid_1 brochure_project
              {| payload_outputs := [(str "de", [(str "note", str "Hallo")])] |}
              9%N one_project) as (doc' & H1 & _ & H3 & _).
  - vm_compute. reflexivity.
  - vm_compute. reflexivity.
  - exists doc'. by split.
Defined.

(** X9: [regenerate] on a stored project rebuilds the outputs from the
    stored facts with the new tone and languages, records the new tone and
    the update time, and keeps the facts and the origin of the document;
    [get_project] returns the result. *)
Theorem regenerate_then_get (project_id : pystr) (oid : list N)
    (doc : document) (payload : RegenerateRequest) (now : N) (w : world) :
  ObjectId project_id = Some oid -> db_project w !! oid = Some doc ->
  exists doc',
    fst (regenerate project_id payload now w) = Return (str "ok")
    /\ get_project project_id (snd (regenerate project_id payload now w))
       = (Return (oid_str oid, doc'),
          snd (regenerate project_id payload now w))
    /\ doc_outputs doc'
       = build_outputs (doc_extracted doc) (regen_tone payload)
                       (regen_languages payload)
    /\ doc_tone doc' = regen_tone payload
    /\ doc_updated_at doc' = Some now
    /\ same_origin doc doc'.
Proof.
  intros Hoid Hdoc. eexists. unfold regenerate, get_project.
  rewrite Hoid, Hdoc. cbn [fst snd db_project].
  rewrite lookup_insert_eq. repeat split.
Qed.

Lemma regenerate_then_get_witness :
  exists doc',
    fst (regenerate (oid_str oid_1)
           {| regen_tone := str "simple"; regen_languages := [str "pl"] |}
           9%N one_project) = Return (str "ok")
    /\ doc_tone doc' = str "simple".
Proof.
  destruct (regenerate_then_get (oid_str oid_1) oid_1 brochure_project
              {| regen_tone := str "simple"; regen_languages := [str "pl"] |}
              9%N one_project) as (doc' & H1 & _ & _ & H4 & _).
  - vm_compute. reflexivity.
  - vm_compute. reflexivity.
  - exists doc'. by split.
Defined.

(** ** What a request can do to the collection *)

Lemma same_origin_refl (d : document) : same_origin d d.
Proof. by repeat split. Qed.

Lemma same_origin_trans (d1 d2 d3 : document) :
  same_origin d1 d2 -> same_origin d2 d3 -> same_origin d1 d3.
Proof.
  intros (A1 & A2 & A3 & A4 & A5) (B1 & B2 & B3 & B4 & B5).
  repeat split; congruence.
Qed.

Lemma ingested_same_origin (lower : pystr -> pystr) (d d' : document) :
  same_origin d d' -> ingested lower d -> ingested lower d'.
Proof.
  intros (A1 & A2 & A3 & A4 & A5) (B1 & B2 & B3). unfold ingested.
  by rewrite A1, A2, A3, A4, A5.
Qed.

(** The three things a request can do to the collection. *)
Lemma handle_db_cases (lower upper : pystr -> pystr) (w : world)
    (r : request) :
  let db := db_project w in
  let db' := db_project (snd (handle lower upper w r)) in
  db' = db
  \/ (exists oid doc,
        db !! oid = None /\ db' = <[oid := doc]> db
        /\ ingested lower doc /\ doc_updated_at doc = None)
  \/ (exists oid doc doc',
        db !! oid = Some doc /\ db' = <[oid := doc']> db
        /\ same_origin doc doc' /\ is_Some (doc_updated_at doc')).
Proof.
  cbv zeta.
  destruct r as [payload fetched oid|file tone uuid_hex oid|project_id
                |project_id payload now|project_id payload now
                |project_id query]; simpl.
  - unfold process_url. destruct fetched as [text|err]; [|by left].
    unfold create_document.
    destruct (db_project w !! oid) eqn:Hoid; [by left|].
    right; left. eexists _, _. split; [done|]. split; [done|].
    repeat split; cbn; eauto.
  - unfold process_upload. destruct (negb (bool_decide _)); [by left|].
    unfold create_document. cbn [db_project files].
    destruct (db_project w !! oid) eqn:Hoid; [by left|].
    right; left. eexists _, _. split; [done|]. split; [done|].
    repeat split; cbn; eauto.
  - unfold get_project. destruct (ObjectId project_id) as [oid|]; [|by left].
    destruct (db_project w !! oid); by left.
  - unfold update_outputs.
    destruct (ObjectId project_id) as [oid|]; [|by left].
    destruct (db_project w !! oid) as [doc|] eqn:Hdoc; [|by left].
    right; right. eexists _, _, _. split; [done|]. split; [done|].
    split; [by repeat split|]. cbn. eauto.
  - unfold regenerate.
    destruct (ObjectId project_id) as [oid|]; [|by left].
    destruct (db_project w !! oid) as [doc|] eqn:Hdoc; [|by left].
    right; right. eexists _, _, _. split; [done|]. split; [done|].
    split; [by repeat split|]. cbn. eauto.
  - unfold export. destruct (ObjectId project_id) as [oid|]; [|by left].
    destruct (db_project w !! oid) as [doc|]; [|by left].
    repeat (destruct (decide _); [by left|]). by left.
Qed.


(** X10: a request leaves the collection as it is, or adds one document
    under an unused identifier, freshly ingested and without update stamp,
    or rewrites one stored document, keeping its origin and stamping the
    update.  It never removes a document. *)
Theorem handle_effect (lower upper : pystr -> pystr) (w : world)
    (r : request) :
  let db := db_project w in
  let db' := db_project (snd (handle lower upper w r)) in
  db' = db
  \/ (exists oid doc,
        db !! oid = None /\ db' = <[oid := doc]> db
        /\ ingested lower doc /\ doc_updated_at doc = None)
  \/ (exists oid doc doc',
        db !! oid = Some doc /\ db' = <[oid := doc']> db
        /\ same_origin doc doc' /\ is_Some (doc_updated_at doc')).
Proof. apply handle_db_cases. Qed.

Lemma handle_persist (lower upper : pystr -> pystr) (w : world)
    (r : request) (oid : list N) (d : document) :
  db_project w !! oid = Some d ->
  exists d',
    db_project (snd (handle lower upper w r)) !! oid = Some d'
    /\ same_origin d d'.
Proof.
  intros Hd.
  destruct (handle_db_cases lower upper w r)
    as [->|[(o & doc & Ho & -> & _)|(o & doc & doc' & Ho & -> & Hso & _)]].
  - exists d. split; [done|apply same_origin_refl].
  - exists d. split; [|apply same_origin_refl].
    rewrite lookup_insert_ne; [done|congruence].
  - destruct (decide (o = oid)) as [->|Hne].
    + exists doc'. rewrite lookup_insert_eq. split; [done|]. congruence.
    + exists d. rewrite lookup_insert_ne by done.
      split; [done|apply same_origin_refl].
Qed.

(** X11: no sequence of requests deletes a stored project or changes
    where it came from: its title, its source and its extracted facts stay
    as they were at ingestion. *)
Theorem documents_persist (lower upper : pystr -> pystr)
    (rs : list request) (w : world) (oid : list N) (d : document) :
  db_project w !! oid = Some d ->
  exists d',
    db_project (run lower upper w rs) !! oid = Some d' /\ same_origin d d'.
Proof.
  revert w d. induction rs as [|r rs IH]; intros w d Hd; simpl.
  - exists d. split; [done|apply same_origin_refl].
  - destruct (handle_persist lower upper w r oid d Hd) as (d1 & H1 & Hso1).
    destruct (IH _ d1 H1) as (d2 & H2 & Hso2).
    exists d2. split; [done|]. by apply (same_origin_trans d d1 d2).
Qed.

Lemma documents_persist_witness :
  exists d',
    db_project (run ascii_lower ascii_upper one_project
                  [ Regenerate (oid_str oid_1)
                      {| regen_tone := str "simple";
                         regen_languages := [str "fr"] |} 7%N ])
      !! oid_1 = Some d'
    /\ same_origin brochure_project d'.
Proof.
  apply (documents_persist ascii_lower ascii_upper
           [ Regenerate (oid_str oid_1)
               {| regen_tone := str "simple";
                  regen_languages := [str "fr"] |} 7%N ]
           one_project oid_1 brochure_project).
  vm_compute. reflexivity.
Defined.

(** X12: every project stored by the service was ingested from an upload
    or from a URL: it has a title, facts that [simple_extract] produced,
    and either a file path and no URL, or a URL and no file path. *)
Theorem stored_ingested (lower upper : pystr -> pystr)
    (rs : list request) :
  map_Forall (fun _ doc => ingested lower doc)
             (db_project (run lower upper initial rs)).
Proof.
  assert (H : forall w,
             map_Forall (fun _ doc => ingested lower doc) (db_project w) ->
             map_Forall (fun _ doc => ingested lower doc)
                        (db_project (run lower upper w rs))).
  { induction rs as [|r rs IH]; intros w Hw; simpl; [done|].
    apply IH.
    destruct (handle_db_cases lower upper w r)
      as [->|[(o & doc & Ho & -> & Hi & _)
             |(o & doc & doc' & Ho & -> & Hso & _)]]; [done| |].
    - by apply map_Forall_insert_2.
    - apply map_Forall_insert_2; [|done].
      apply (ingested_same_origin lower doc doc' Hso). by apply (Hw o). }
  apply H. intros oid doc Hdoc. by simpl in Hdoc.
Qed.

(** ** Export *)

(** X13: [export] never changes the service.  For a stored project it
    answers 400 exactly when the lower-cased format is none of [json],
    [txt], [pdf], [docx]; for [json] the request ends as a server error,
    because the stored document with its [_id] is not serialisable. *)
Theorem export_outcome (lower upper : pystr -> pystr) (project_id : pystr)
    (query : ExportQuery) (w : world) :
  snd (export lower upper project_id query w) = w
  /\ forall oid doc,
       ObjectId project_id = Some oid -> db_project w !! oid = Some doc ->
       (status_of (fst (export lower upper project_id query w)) = 400
        <-> lower (format query)
              ∉ [str "json"; str "txt"; str "pdf"; str "docx"])
       /\ (lower (format query) = str "json" ->
           fst (export lower upper project_id query w) = Unhandled
           /\ status_of (fst (export lower upper project_id query w)) = 500).
Proof.
  split.
  - unfold export. destruct (ObjectId project_id) as [oid|]; [|done].
    destruct (db_project w !! oid) as [doc|]; [|done].
    repeat (destruct (decide _); [done|]). done.
  - intros oid doc Hoid Hdoc. unfold export, JSONResponse.
    rewrite Hoid, Hdoc.
    destruct (decide (lower (format query) = str "json")) as [Hj|Hj].
    { split; [|done]. split; [done|]. intros H. exfalso. apply H.
      rewrite Hj. apply list_elem_of_here. }
    split; [|done].
    destruct (decide (lower (format query) = str "txt")) as [Ht|Ht].
    { split; [done|]. intros H. exfalso. apply H. rewrite Ht.
      apply list_elem_of_further, list_elem_of_here. }
    destruct (decide (lower (format query) = str "pdf")) as [Hp|Hp].
    { split; [done|]. intros H. exfalso. apply H. rewrite Hp.
      do 2 apply list_elem_of_further. apply list_elem_of_here. }
    destruct (decide (lower (format query) = str "docx")) as [Hx|Hx].
    { split; [done|]. intros H. exfalso. apply H. rewrite Hx.
      do 3 apply list_elem_of_further. apply list_elem_of_here. }
    split; [|done]. intros _ Hin.
    repeat (apply elem_of_cons in Hin as [Hin|Hin]; [done|]).
    by apply elem_of_nil in Hin.
Qed.

(** ** Uploaded files *)

Lemma read_file_write (fs : list (pystr * list N)) (p path : pystr)
    (content : list N) :
  read_file (fs ++ [(p, content)]) path
  = if decide (p = path) then Some content else read_file fs path.
Proof.
  induction fs as [|[q c] fs IH]; simpl.
  - by destruct (decide (p = path)).
  - rewrite IH. destruct (decide (p = path)); [done|].
    by destruct (read_file fs path).
Qed.

(** The writes of one request: none, or the one file of an accepted
    upload. *)
Lemma handle_files (lower upper : pystr -> pystr) (w : world)
    (r : request) :
  files (snd (handle lower upper w r))
  = match r, upload_path lower r with
    | ProcessUpload file _ _ _, Some saved =>
        files w ++ [(saved, file_bytes file)]
    | _, _ => files w
    end.
Proof.
  destruct r as [payload fetched oid|file tone uuid_hex oid|project_id
                |project_id payload now|project_id payload now
                |project_id query]; simpl.
  - unfold process_url. destruct fetched as [text|err]; [|done].
    unfold create_document. by destruct (db_project w !! oid).
  - unfold process_upload. destruct (bool_decide _); [|done].
    cbn [negb]. unfold create_document. cbn [db_project files].
    by destruct (db_project w !! oid).
  - unfold get_project. destruct (ObjectId project_id) as [oid|]; [|done].
    by destruct (db_project w !! oid).
  - unfold update_outputs.
    destruct (ObjectId project_id) as [oid|]; [|done].
    by destruct (db_project w !! oid).
  - unfold regenerate.
    destruct (ObjectId project_id) as [oid|]; [|done].
    by destruct (db_project w !! oid).
  - unfold export. destruct (ObjectId project_id) as [oid|]; [|done].
    destruct (db_project w !! oid) as [doc|]; [|done].
    repeat (destruct (decide _); [done|]). done.
Qed.

(** X14: no request removes an uploaded file: a path that can be read
    before a sequence of requests can be read after it.  Its content is
    the same as before when no accepted upload of the sequence writes to
    that path, that is, draws the same random name with the same
    extension; such an upload replaces the content. *)
Theorem files_kept (lower upper : pystr -> pystr) (rs : list request)
    (w : world) (path : pystr) :
  (is_Some (read_file (files w) path) ->
   is_Some (read_file (files (run lower upper w rs)) path))
  /\ (Forall (fun r => upload_path lower r <> Some path) rs ->
      read_file (files (run lower upper w rs)) path
      = read_file (files w) path).
Proof.
  revert w. induction rs as [|r rs IH]; intros w; simpl; [done|].
  destruct (IH (snd (handle lower upper w r))) as [IH1 IH2].
  pose proof (handle_files lower upper w r) as Hf.
  split.
  - intros Hsome. apply IH1. rewrite Hf.
    destruct r; try done. destruct (upload_path lower _); [|done].
    rewrite read_file_write. by destruct (decide _).
  - intros Hrs. apply Forall_cons in Hrs as [Hr Hrs].
    rewrite (IH2 Hrs), Hf.
    destruct r; try done.
    destruct (upload_path lower _) as [saved|] eqn:E; [|done].
    rewrite read_file_write. destruct (decide (saved = path)); [|done].
    congruence.
Qed.

(** ** File names *)

Lemma startswith_char (c d : N) (s : pystr) :
  startswith [c] (d :: s) = bool_decide (c = d).
Proof. simpl. by destruct (decide (c = d)); [rewrite bool_decide_eq_true_2|rewrite bool_decide_eq_false_2]. Qed.

Lemma rfind_char_absent (c : N) (s : pystr) (i last : Z) :
  c ∉ s -> rfind_from [c] s i last = last.
Proof.
  revert i last. induction s as [|d s IH]; intros i last Hc; [done|].
  apply not_elem_of_cons in Hc as [Hd Hs].
  cbn [rfind_from]. rewrite startswith_char.
  rewrite bool_decide_eq_false_2 by done. by apply IH.
Qed.

Lemma rfind_char_last (c : N) (s1 s2 : pystr) (i last : Z) :
  c ∉ s2 ->
  rfind_from [c] (s1 ++ c :: s2) i last = i + Z.of_nat (length s1).
Proof.
  intros Hc. revert i last. induction s1 as [|d s1 IH]; intros i last.
  - cbn [app rfind_from length]. rewrite startswith_char.
    rewrite bool_decide_eq_true_2 by done.
    rewrite rfind_char_absent by done. simpl. lia.
  - cbn [app rfind_from]. rewrite IH. simpl length. lia.
Qed.

(** For a file name without directory part, [stem.ext], the extension
    that [splitext] finds is [.ext] when the stem has a character other
    than a dot; when the stem is empty or all dots, the name has no
    extension. *)
Lemma splitext_stem (stem ext : pystr) :
  47%N ∉ stem -> 47%N ∉ ext -> 46%N ∉ ext ->
  splitext (stem ++ 46%N :: ext)
  = if existsb (fun c => negb (bool_decide (c = 46%N))) stem
    then (stem, 46%N :: ext)
    else (stem ++ 46%N :: ext, []).
Proof.
  intros Hs He Hd. unfold splitext, rfind.
  change (str "/") with [47%N]. change (str ".") with [46%N].
  rewrite (rfind_char_last 46 stem ext 0 (-1) Hd).
  rewrite rfind_char_absent.
  2:{ intros [H|H]%elem_of_app; [done|].
      apply elem_of_cons in H as [H|H]; done. }
  rewrite Z.add_0_l.
  destruct (Z.ltb_spec (-1) (Z.of_nat (length stem))) as [_|?]; [|lia].
  assert (Hstem : slice (stem ++ 46%N :: ext) (-1 + 1)
                        (Z.of_nat (length stem)) = stem).
  { pose proof (slice_nat (stem ++ 46%N :: ext) 0 (length stem)) as H.
    change (Z.of_nat 0) with 0 in H. rewrite Z.add_0_l in H.
    change (-1 + 1) with 0. rewrite H, drop_0.
    by rewrite take_app_length. }
  rewrite Hstem. cbn [andb].
  destruct (existsb _ stem); [|done].
  unfold slice_to, slice_from. f_equal.
  - exact Hstem.
  - pose proof (slice_nat (stem ++ 46%N :: ext) (length stem)
                  (length (46%N :: ext))) as H.
    rewrite <- Nat2Z.inj_add, <- length_app in H. rewrite H.
    rewrite drop_app_length. by rewrite take_ge.
Qed.

(** X15: an upload named [stem.ext], without directory part, is judged
    by the lower-cased [.ext] when the stem has a character other than a
    dot, and as a name without extension when the stem is empty or all
    dots; it is answered with status 400 exactly when what is judged is
    none of the four accepted extensions. *)
Theorem upload_extension_check (lower : pystr -> pystr)
    (stem ext bytes tone uuid_hex : pystr) (oid : list N) (w : world) :
  47%N ∉ stem -> 47%N ∉ ext -> 46%N ∉ ext ->
  let file := {| filename := stem ++ 46%N :: ext; file_bytes := bytes |} in
  let judged :=
    if existsb (fun c => negb (bool_decide (c = 46%N))) stem
    then lower (46%N :: ext) else lower [] in
  status_of (fst (process_upload lower file tone uuid_hex oid w)) = 400
  <-> judged ∉ [str ".pdf"; str ".png"; str ".jpg"; str ".jpeg"].
Proof.
  intros Hs He Hd. cbv zeta. unfold process_upload. cbn [filename].
  rewrite (splitext_stem stem ext Hs He Hd).
  assert (Hj : snd (if existsb (fun c => negb (bool_decide (c = 46%N))) stem
                    then (stem, 46%N :: ext)
                    else (stem ++ 46%N :: ext, []))
               = if existsb (fun c => negb (bool_decide (c = 46%N))) stem
                 then 46%N :: ext else [])
    by (by destruct (existsb _ stem)).
  rewrite Hj.
  assert (Hl : lower (if existsb (fun c => negb (bool_decide (c = 46%N))) stem
                      then 46%N :: ext else [])
               = if existsb (fun c => negb (bool_decide (c = 46%N))) stem
                 then lower (46%N :: ext) else lower [])
    by (by destruct (existsb _ stem)).
  rewrite Hl.
  destruct (decide ((if existsb (fun c => negb (bool_decide (c = 46%N))) stem
                     then lower (46%N :: ext) else lower [])
                    ∈ [str ".pdf"; str ".png"; str ".jpg"; str ".jpeg"]))
    as [Hin|Hnin].
  - rewrite bool_decide_eq_true_2 by done. cbn [negb].
    unfold create_document. cbn [db_project files].
    split; [|done]. by destruct (db_project w !! oid).
  - by rewrite bool_decide_eq_false_2 by done.
Qed.

Lemma upload_extension_check_witness :
  status_of
    (fst (process_upload ascii_lower
            {| filename := str "plan" ++ 46%N :: str "PDF";
               file_bytes := [] |}
            (str "premium") (str "0f1e2d") oid_1 initial)) = 400
  <-> ascii_lower (46%N :: str "PDF")
        ∉ [str ".pdf"; str ".png"; str ".jpg"; str ".jpeg"].
Proof.
  apply (upload_extension_check ascii_lower (str "plan") (str "PDF") []
           (str "premium") (str "0f1e2d") oid_1 initial);
    apply (bool_decide_unpack _); vm_compute; exact I.
Defined.

(** X16: a fetched URL with a fresh identifier stores one document and
    writes no file; the id it returns finds the document again.  The
    document records the URL, the requested tone, the facts of the first
    5000 characters and outputs for the requested languages; its title
    is the extracted project line, or the URL when there is none. *)
Theorem url_then_get (lower : pystr -> pystr) (payload : ProcessURLRequest)
    (text : pystr) (oid : list N) (w : world) :
  generated_oid oid -> db_project w !! oid = None ->
  exists doc,
    let extracted := simple_extract lower (take 5000 text) in
    let w' := {| db_project := <[oid := doc]> (db_project w);
                 files := files w |} in
    process_url lower payload (inl text) oid w
    = (Return (oid_str oid, doc), w')
    /\ get_project (oid_str oid) w' = (Return (oid_str oid, doc), w')
    /\ doc_extracted doc = extracted
    /\ doc_outputs doc
       = build_outputs extracted (url_tone payload) (url_languages payload)
    /\ doc_title doc = Some (or_str (project extracted) (url payload))
    /\ doc_source_url doc = Some (url payload)
    /\ doc_tone doc = url_tone payload
    /\ doc_updated_at doc = None.
Proof.
  intros Hoid Hfresh. eexists. cbv zeta. split; [|split].
  - unfold process_url, create_document. rewrite Hfresh.
    rewrite slice_to_take by lia.
    replace (Z.to_nat 5000) with 5000%nat by (vm_compute; reflexivity).
    reflexivity.
  - unfold get_project. rewrite (ObjectId_oid_str oid Hoid).
    cbn [db_project]. by rewrite lookup_insert_eq.
  - repeat split.
Qed.

Lemma url_then_get_witness :
  exists doc,
    fst (process_url ascii_lower
           {| url := str "https://example.org/x"; url_tone := str "simple";
              url_languages := [str "en"] |}
           (inl (str "Developer: Acme")) oid_1 initial)
    = Return (oid_str oid_1, doc)
    /\ doc_title doc = Some (str "https://example.org/x").
Proof.
  destruct (url_then_get ascii_lower
              {| url := str "https://example.org/x"; url_tone := str "simple";
                 url_languages := [str "en"] |}
              (str "Developer: Acme") oid_1 initial)
    as (doc & H1 & _ & _ & _ & H5 & _).
  - split; [reflexivity|]. apply (bool_decide_unpack _). vm_compute. exact I.
  - reflexivity.
  - exists doc. cbv zeta in H1. rewrite H1. split; [done|].
    rewrite H5. vm_compute. reflexivity.
Defined.
